(** * FlowWatch: the telemetry connection manager and the logging bridge

    A shallow embedding of the Go packages [otelHelper] and [loggingHelper]
    of FlowWatch, and the properties of their setup, shutdown, level
    translation and logrus hooks.

    Conventions.
    - A Go [error] value is an [option]: [None] is [nil].
    - Process-wide variables (the environment, the package variables
      [shutdownFuncs], [once], [logHelper], the OpenTelemetry globals and the
      spans of the tracing SDK) are the fields of one record, [World], that
      every operation threads explicitly.
    - [log.Fatal] and [log.Fatalf] end the process: a computation yields
      [Return], [Exit] or [Panic].
    - What the libraries decide (whether the exporter can be built, whether
      a shutdown fails, how a time is printed, what [runtime.Caller] sees,
      what logrus does with a nested log call) is a field of the class
      [Externals]; every property holds for every instance.
    - The sources hold several revisions of some files.  The model follows
      otelHelper/otelHelper.go and otelHelper/traceProvider.go for the
      connection manager, and for the logger the revision of package
      [loggingHelper] with the shutdown hook; [Level.String] exists in the
      last revision of the levels only.  Where an earlier revision differs
      in a way that matters, it is modelled beside the later one and named
      after its package. *)

From Stdlib Require Import ZArith Lia DecimalString.
From stdpp Require Import base gmap strings list.

Open Scope Z_scope.

(* ================================================================== *)
(** ** github.com/pkg/errors *)
(* ================================================================== *)

Module errors.

(** [fundamental] is a leaf error ([errors.New], or any error of a
    library); [withMessage] is what [errors.Wrap] builds.  The recorded
    stack is left out: nothing in FlowWatch reads it. *)
Inductive error : Type :=
| fundamental (msg : string)
| withMessage (cause : error) (msg : string).

Definition New (message : string) : error := fundamental message.

(** [Wrap] returns nil if [err] is nil. *)
Definition Wrap (err : option error) (message : string) : option error :=
  match err with
  | None => None
  | Some e => Some (withMessage e message)
  end.

(** [Error()]: for a wrapped error, the message, a colon and the text of
    the cause. *)
Fixpoint Error (e : error) : string :=
  match e with
  | fundamental msg => msg
  | withMessage cause msg => msg +:+ ": " +:+ Error cause
  end.

(** [Cause]: the innermost error of the chain. *)
Fixpoint Cause (e : error) : error :=
  match e with
  | fundamental msg => fundamental msg
  | withMessage cause _ => Cause cause
  end.

#[global] Instance error_eq_dec : EqDecision error.
Proof. solve_decision. Defined.

End errors.

(* ================================================================== *)
(** ** strconv *)
(* ================================================================== *)

Module strconv.

(** [*strconv.NumError]: the failing function, the input and the reason. *)
Record NumError : Type := mkNumError {
  Func : string;
  Num : string;
  Err : string
}.

Definition syntaxError (fn str : string) : NumError :=
  mkNumError fn str "invalid syntax".

Definition one_of (str : string) (l : list string) : bool :=
  bool_decide (str ∈ l).

(** [ParseBool] accepts 1, t, T, TRUE, true, True, 0, f, F, FALSE, false,
    False; any other value returns an error (and false). *)
Definition ParseBool (str : string) : bool * option NumError :=
  if one_of str ["1"; "t"; "T"; "TRUE"; "true"; "True"] then (true, None)
  else if one_of str ["0"; "f"; "F"; "FALSE"; "false"; "False"] then (false, None)
  else (false, Some (syntaxError "ParseBool" str)).

End strconv.

(* ================================================================== *)
(** ** github.com/sirupsen/logrus: levels *)
(* ================================================================== *)

Module logrus.

(** The seven levels of logrus, from the most to the least severe. *)
Inductive Level : Type :=
| PanicLevel | FatalLevel | ErrorLevel | WarnLevel
| InfoLevel | DebugLevel | TraceLevel.

#[global] Instance Level_eq_dec : EqDecision Level.
Proof. solve_decision. Defined.

(** The [uint32] behind each constant ([PanicLevel] is [iota] = 0). *)
Definition value (l : Level) : Z :=
  match l with
  | PanicLevel => 0 | FatalLevel => 1 | ErrorLevel => 2 | WarnLevel => 3
  | InfoLevel => 4 | DebugLevel => 5 | TraceLevel => 6
  end.

(** [Level.String()] of logrus. *)
Definition String (l : Level) : string :=
  match l with
  | PanicLevel => "panic" | FatalLevel => "fatal" | ErrorLevel => "error"
  | WarnLevel => "warning" | InfoLevel => "info" | DebugLevel => "debug"
  | TraceLevel => "trace"
  end.

(** "[a] is at least as severe as [b]". *)
Definition at_least (a b : Level) : Prop := value a <= value b.

End logrus.

(* ================================================================== *)
(** ** The severity enumeration of FlowWatch (logLevel.go) *)
(* ================================================================== *)

Module Level.

(** [type Level uint32]: a value is any integer in [0, 2^32). *)
Definition Level : Type := Z.

Definition in_range (l : Level) : Prop := 0 <= l < 2 ^ 32.

Definition Debug : Level := 0.
Definition Info : Level := 1.
Definition Warn : Level := 2.
Definition Error : Level := 3.
Definition Fatal : Level := 4.

(** The five declared constants. *)
Definition enumeration : list Level := [Debug; Info; Warn; Error; Fatal].

(** [func (l Level) String() string] *)
Definition String (l : Level) : string :=
  if decide (l = Debug) then "Debug"
  else if decide (l = Info) then "Info"
  else if decide (l = Warn) then "Warn"
  else if decide (l = Error) then "Error"
  else if decide (l = Fatal) then "Fatal"
  else "Unknown".

(** [func (l Level) getLogrusLevel() logrus.Level] *)
Definition getLogrusLevel (l : Level) : logrus.Level :=
  if decide (l = Debug) then logrus.DebugLevel
  else if decide (l = Info) then logrus.InfoLevel
  else if decide (l = Warn) then logrus.WarnLevel
  else if decide (l = Error) then logrus.ErrorLevel
  else if decide (l = Fatal) then logrus.FatalLevel
  else logrus.DebugLevel.

End Level.

(* ================================================================== *)
(** ** The OpenTelemetry API and SDK, as far as FlowWatch uses them *)
(* ================================================================== *)

Module otel.

(** [attribute.KeyValue]; FlowWatch only builds string-valued ones. *)
Record KeyValue : Type := mkKeyValue {
  Key : string;
  Value : string
}.

(** [attribute.String(k, v)] *)
Definition String (k v : string) : KeyValue := mkKeyValue k v.

(** An event of a span: its name and the attributes given through
    [trace.WithAttributes]. *)
Record Event : Type := mkEvent {
  Name : string;
  Attributes : list KeyValue
}.

(** A [trace.Span] is either a span of the SDK, known by its identifier,
    or the span that performs no operation. *)
Inductive Span : Type :=
| sdkSpan (id : nat)
| noopSpan.

(** What the SDK holds for a span: whether it still records (it was
    sampled and has not ended) and the events added so far. *)
Record SpanData : Type := mkSpanData {
  recording : bool;
  events : list Event
}.

(** A non-nil [context.Context]: the span stored in it, if any. *)
Record Context : Type := mkContext {
  currentSpan : option Span
}.

(** [trace.SpanFromContext]: the span of the context; the no-op span when
    the context is nil or holds none.  The result is an interface value,
    which is never nil here. *)
Definition SpanFromContext (ctx : option Context) : option Span :=
  match ctx with
  | None => Some noopSpan
  | Some c =>
      match currentSpan c with
      | Some s => Some s
      | None => Some noopSpan
      end
  end.

(** [span.AddEvent(name, trace.WithAttributes(attrs...))] on the spans of
    the SDK: a recording span gets the event appended; a span that does
    not record, and the no-op span, ignore it.  The time of the event and
    the limits of the SDK on the events of a span are left out. *)
Definition AddEvent (s : Span) (name : string) (attrs : list KeyValue)
    (spans : gmap nat SpanData) : gmap nat SpanData :=
  match s with
  | noopSpan => spans
  | sdkSpan id =>
      match spans !! id with
      | Some d =>
          if recording d
          then <[id := mkSpanData true (events d ++ [mkEvent name attrs])]> spans
          else spans
      | None => spans
      end
  end.

(** Options of [otlptracegrpc.New]. *)
Inductive ExporterOption : Type :=
| WithEndpoint (endpoint : string)
| WithInsecure.

(** The exporter that [otlptracegrpc.New] returns for a list of options. *)
Record Exporter : Type := mkExporter {
  exporterOptions : list ExporterOption
}.

(** Options of [trace.NewTracerProvider]. *)
Inductive TracerProviderOption : Type :=
| WithBatcher (e : Exporter)
| WithResource (schemaURL : string) (attrs : list KeyValue).

Record TracerProvider : Type := mkTracerProvider {
  providerOptions : list TracerProviderOption
}.

Definition NewTracerProvider (opts : list TracerProviderOption) : TracerProvider :=
  mkTracerProvider opts.

(** [propagation.TextMapPropagator]: the two propagators that FlowWatch
    names, and the composite of a list of them. *)
Inductive Propagator : Type :=
| TraceContext
| Baggage.

Record CompositePropagator : Type := mkComposite {
  members : list Propagator
}.

Definition NewCompositeTextMapPropagator (ps : list Propagator) : CompositePropagator :=
  mkComposite ps.

(** semconv v1.25.0 *)
Definition SchemaURL : string := "https://opentelemetry.io/schemas/1.25.0".
Definition ServiceNameKey : string := "service.name".

End otel.

(* ================================================================== *)
(** ** The standard [log] package and [time] *)
(* ================================================================== *)

Module log.

(** An argument of a formatted message, kept as the value it is. *)
Inductive Arg : Type :=
| ArgError (e : errors.error)
| ArgNumError (e : strconv.NumError).

(** A line written by [log.Println], [log.Printf], [log.Fatal] or
    [log.Fatalf]: the format (or the message) and its arguments. *)
Record Line : Type := mkLine {
  format : string;
  args : list Arg
}.

End log.

Module time.

(** An instant and its zone: seconds and nanoseconds since the epoch,
    and the offset of the zone in seconds. *)
Record Time : Type := mkTime {
  sec : Z;
  nsec : Z;
  offset : Z
}.

Definition RFC3339 : string := "2006-01-02T15:04:05Z07:00".

End time.

(* ================================================================== *)
(** ** The logger of logrus, its entries and the hooks of FlowWatch *)
(* ================================================================== *)

Module hooks.

(** The three hook types of [loggingHelper]; each is an empty struct. *)
Inductive Hook : Type :=
| LogrusContextHook
| LogrusOtelHook
| LogrusOtelShutdownHook.

#[global] Instance Hook_eq_dec : EqDecision Hook.
Proof. solve_decision. Defined.

(** A value of [logrus.Fields]: a string, an int, or something else. *)
Inductive FieldValue : Type :=
| VString (s : string)
| VInt (n : Z)
| VOther.

(** [logrus.Entry], the fields that the hooks read or write. *)
Record Entry : Type := mkEntry {
  Data : gmap string FieldValue;
  Time : time.Time;
  Level : logrus.Level;
  Message : string;
  Context : option otel.Context
}.

Inductive Formatter : Type :=
| TextFormatter
| JSONFormatter (TimestampFormat : string).

(** [logrus.LevelHooks] is [map[Level][]Hook]; a level without an entry
    has no hooks. *)
Definition LevelHooks : Type := logrus.Level -> list Hook.

Record Logger : Type := mkLogger {
  Hooks : LevelHooks;
  LoggerFormatter : Formatter;
  LoggerLevel : logrus.Level
}.

(** [logrus.New()] *)
Definition New : Logger := mkLogger (fun _ => []) TextFormatter logrus.InfoLevel.

Definition SetLevel (lvl : logrus.Level) (lg : Logger) : Logger :=
  mkLogger (Hooks lg) (LoggerFormatter lg) lvl.

Definition SetFormatter (f : Formatter) (lg : Logger) : Logger :=
  mkLogger (Hooks lg) f (LoggerLevel lg).

End hooks.

(* ================================================================== *)
(** ** The state of the process *)
(* ================================================================== *)

(** The closure that [initTraceProvider] appends to [shutdownFuncs]; it
    captures the tracer provider and the exporter. *)
Record ShutdownFunc : Type := mkShutdownFunc {
  closure_tp : otel.TracerProvider;
  closure_exporter : otel.Exporter
}.

(** The calls that reach the SDK and the runtime, in the order made. *)
Inductive Call : Type :=
| CallSetTextMapPropagator (p : otel.CompositePropagator)
| CallNew (opts : list otel.ExporterOption)
| CallSetTracerProvider (tp : otel.TracerProvider)
| CallProviderShutdown (tp : otel.TracerProvider)
| CallExporterShutdown (e : otel.Exporter)
| CallCaller (skip : Z).

Record World : Type := mkWorld {
  (* the environment of the process, and the parsed .env file if it can be
     read *)
  environ : gmap string string;
  dotenv : option (gmap string string);
  (* what the standard logger has written *)
  logged : list log.Line;
  (* the globals of OpenTelemetry *)
  textMapPropagator : option otel.CompositePropagator;
  tracerProvider : option otel.TracerProvider;
  (* package otelHelper: shutdownFuncs and once *)
  shutdownFuncs : list ShutdownFunc;
  otelOnce : bool;
  (* the calls made so far *)
  calls : list Call;
  (* the spans of the SDK *)
  spans : gmap nat otel.SpanData;
  (* package loggingHelper: logHelper and once *)
  logHelper : option hooks.Logger;
  logOnce : bool
}.

Definition set_environ (v : gmap string string) (w : World) : World :=
  mkWorld v (dotenv w) (logged w) (textMapPropagator w) (tracerProvider w)
    (shutdownFuncs w) (otelOnce w) (calls w) (spans w) (logHelper w) (logOnce w).

Definition set_logged (v : list log.Line) (w : World) : World :=
  mkWorld (environ w) (dotenv w) v (textMapPropagator w) (tracerProvider w)
    (shutdownFuncs w) (otelOnce w) (calls w) (spans w) (logHelper w) (logOnce w).

Definition set_textMapPropagator (v : option otel.CompositePropagator) (w : World) : World :=
  mkWorld (environ w) (dotenv w) (logged w) v (tracerProvider w)
    (shutdownFuncs w) (otelOnce w) (calls w) (spans w) (logHelper w) (logOnce w).

Definition set_tracerProvider (v : option otel.TracerProvider) (w : World) : World :=
  mkWorld (environ w) (dotenv w) (logged w) (textMapPropagator w) v
    (shutdownFuncs w) (otelOnce w) (calls w) (spans w) (logHelper w) (logOnce w).

Definition set_shutdownFuncs (v : list ShutdownFunc) (w : World) : World :=
  mkWorld (environ w) (dotenv w) (logged w) (textMapPropagator w) (tracerProvider w)
    v (otelOnce w) (calls w) (spans w) (logHelper w) (logOnce w).

Definition set_otelOnce (v : bool) (w : World) : World :=
  mkWorld (environ w) (dotenv w) (logged w) (textMapPropagator w) (tracerProvider w)
    (shutdownFuncs w) v (calls w) (spans w) (logHelper w) (logOnce w).

Definition set_calls (v : list Call) (w : World) : World :=
  mkWorld (environ w) (dotenv w) (logged w) (textMapPropagator w) (tracerProvider w)
    (shutdownFuncs w) (otelOnce w) v (spans w) (logHelper w) (logOnce w).

Definition set_spans (v : gmap nat otel.SpanData) (w : World) : World :=
  mkWorld (environ w) (dotenv w) (logged w) (textMapPropagator w) (tracerProvider w)
    (shutdownFuncs w) (otelOnce w) (calls w) v (logHelper w) (logOnce w).

Definition set_logHelper (v : option hooks.Logger) (w : World) : World :=
  mkWorld (environ w) (dotenv w) (logged w) (textMapPropagator w) (tracerProvider w)
    (shutdownFuncs w) (otelOnce w) (calls w) (spans w) v (logOnce w).

Definition set_logOnce (v : bool) (w : World) : World :=
  mkWorld (environ w) (dotenv w) (logged w) (textMapPropagator w) (tracerProvider w)
    (shutdownFuncs w) (otelOnce w) (calls w) (spans w) (logHelper w) v.

(** A computation on the world returns, ends the process with an exit code
    ([os.Exit], reached through [log.Fatal]), or panics. *)
Inductive Outcome (A : Type) : Type :=
| Return (a : A) (w : World)
| Exit (code : Z) (w : World)
| Panic (reason : string) (w : World).

Arguments Return {A} a w.
Arguments Exit {A} code w.
Arguments Panic {A} reason w.

Definition M (A : Type) : Type := World -> Outcome A.

(** What the process cannot decide by itself. *)
Class Externals : Type := mkExternals {
  (* otlptracegrpc.New: nil, or the error of the construction; the answer
     may depend on the calls made before *)
  otlptracegrpc_New : list otel.ExporterOption -> list Call -> option errors.error;
  (* tp.Shutdown and exporter.Shutdown: nil, or the error *)
  TracerProvider_Shutdown : otel.TracerProvider -> list Call -> option errors.error;
  Exporter_Shutdown : otel.Exporter -> list Call -> option errors.error;
  (* t.Format(layout) *)
  Time_Format : time.Time -> string -> string;
  (* runtime.Caller(skip): the file and the line of the frame, if the stack
     is that deep *)
  runtime_Caller : Z -> World -> option (string * Z);
  (* logger.WithContext(ctx).Log(level, args...) of logrus, followed for the
     fatal level by the exit of the process *)
  Entry_Log : hooks.Logger -> option otel.Context -> logrus.Level ->
              list log.Arg -> M unit
}.

Definition ret {A} (a : A) : M A := fun w => Return a w.

Definition bind {A B} (m : M A) (k : A -> M B) : M B :=
  fun w =>
    match m w with
    | Return a w' => k a w'
    | Exit code w' => Exit code w'
    | Panic reason w' => Panic reason w'
    end.

Notation "'let*' x := m 'in' k" := (bind m (fun x => k))
  (at level 10, x name, m at level 100, k at level 200).
Notation "m ;;; k" := (bind m (fun _ => k))
  (at level 100, k at level 200, right associativity).

Definition get {A} (f : World -> A) : M A := fun w => Return (f w) w.
Definition modify (f : World -> World) : M unit := fun w => Return tt (f w).

(** The world in which an outcome leaves the process. *)
Definition world_of {A} (o : Outcome A) : World :=
  match o with
  | Return _ w => w
  | Exit _ w => w
  | Panic _ w => w
  end.

Definition returns {A} (o : Outcome A) : bool :=
  match o with
  | Return _ _ => true
  | _ => false
  end.

Definition panic {A} (reason : string) : M A := fun w => Panic reason w.

(** [log.Println], [log.Printf], [log.Fatal], [log.Fatalf] and [os.Exit] *)
Definition log_Printf (fmt : string) (a : list log.Arg) : M unit :=
  modify (fun w => set_logged (logged w ++ [log.mkLine fmt a]) w).

Definition log_Println (msg : string) : M unit := log_Printf msg [].

Definition os_Exit {A} (code : Z) : M A := fun w => Exit code w.

Definition log_Fatalf {A} (fmt : string) (a : list log.Arg) : M A :=
  log_Printf fmt a ;;; os_Exit 1.

Definition log_Fatal {A} (msg : string) : M A := log_Fatalf msg [].

(** [os.Getenv]: the value, or the empty string when the variable is not
    set. *)
Definition os_Getenv (key : string) : M string :=
  get (fun w => default "" (environ w !! key)).

(** [godotenv.Load(".env")]: every variable of the file that the
    environment does not have yet is set; a file that cannot be read is an
    error and changes nothing. *)
Definition godotenv_Load : M (option errors.error) :=
  fun w =>
    match dotenv w with
    | None => Return (Some (errors.fundamental "open .env: no such file or directory")) w
    | Some file => Return None (set_environ (environ w ∪ file) w)
    end.

Definition record_call (c : Call) : M unit :=
  modify (fun w => set_calls (calls w ++ [c]) w).

(* ================================================================== *)
(** ** Package otelHelper (otelHelper.go, traceProvider.go) *)
(* ================================================================== *)

Module otelHelper.
Section WithExternals.
Context `{ext : Externals}.

(** The function value stored by [initTraceProvider]: [shutdown()] of the
    closure over [tp] and [sigNozTraceExporter]. *)
Definition call_shutdown (f : ShutdownFunc) : M (option errors.error) :=
  (* Shutdown the tracer provider to flush any remaining spans *)
  let* err1 := get (fun w => TracerProvider_Shutdown (closure_tp f) (calls w)) in
  record_call (CallProviderShutdown (closure_tp f)) ;;;
  let err1 :=
    if bool_decide (err1 ≠ None)
    then errors.Wrap err1 "Failed to shut down the tracer provider."
    else err1 in
  (* Shutdown the SigNoz exporter to ensure all spans are sent *)
  let* err2 := get (fun w => Exporter_Shutdown (closure_exporter f) (calls w)) in
  record_call (CallExporterShutdown (closure_exporter f)) ;;;
  let err2 :=
    if bool_decide (err2 ≠ None)
    then errors.Wrap err2 "Failed to shut down the SigNoz exporter."
    else err2 in
  match err1, err2 with
  | Some e1, Some e2 => ret (errors.Wrap (Some e1) (errors.Error e2))
  | Some e1, None => ret (Some e1)
  | None, _ => ret err2
  end.

(** The loop of [Shutdown] over a slice of functions. *)
Fixpoint range_shutdownFuncs (fs : list ShutdownFunc) : M unit :=
  match fs with
  | [] => ret tt
  | shutdown :: rest =>
      let* err := call_shutdown shutdown in
      match err with
      | Some e => log_Printf "Failed to shut down the service. %v" [log.ArgError e]
      | None => ret tt
      end ;;;
      range_shutdownFuncs rest
  end.

(** [func Shutdown()] *)
Definition Shutdown : M unit :=
  let* fs := get shutdownFuncs in
  range_shutdownFuncs fs.

(** [func initTraceProvider(serviceName, collectorURL string, supportTLS bool) error] *)
Definition initTraceProvider (serviceName collectorURL : string) (supportTLS : bool)
    : M (option errors.error) :=
  (* Add the collector URL to the exporter options *)
  let opts := [] ++ [otel.WithEndpoint collectorURL] in
  (* If the connection is insecure, add the insecure option *)
  let* opts :=
    if negb supportTLS
    then log_Println "Insecure connection to the collector" ;;;
         ret (opts ++ [otel.WithInsecure])
    else log_Fatal "TLS is not implemented yet" in
  (* Create an OTLP trace exporter *)
  let* err := get (fun w => otlptracegrpc_New opts (calls w)) in
  record_call (CallNew opts) ;;;
  match err with
  | Some e => ret (errors.Wrap (Some e) "Failed to create OTLP exporter")
  | None =>
      let sigNozTraceExporter := otel.mkExporter opts in
      let tpOptions := [] ++ [otel.WithBatcher sigNozTraceExporter] in
      (* Set the service name *)
      let tpOptions :=
        tpOptions ++
        [otel.WithResource otel.SchemaURL
           [otel.String otel.ServiceNameKey serviceName]] in
      (* Create a new trace provider with the configured options *)
      let tp := otel.NewTracerProvider tpOptions in
      (* Set the trace provider to the global provider *)
      modify (set_tracerProvider (Some tp)) ;;;
      record_call (CallSetTracerProvider tp) ;;;
      (* Add the shutdown function to the global slice *)
      let shutdown := mkShutdownFunc tp sigNozTraceExporter in
      modify (fun w => set_shutdownFuncs (shutdownFuncs w ++ [shutdown]) w) ;;;
      ret None
  end.

(** [func initOtelHelper()] *)
Definition initOtelHelper : M unit :=
  (* Set the global text map propagator *)
  let prop := otel.NewCompositeTextMapPropagator [otel.TraceContext; otel.Baggage] in
  modify (set_textMapPropagator (Some prop)) ;;;
  record_call (CallSetTextMapPropagator prop) ;;;
  (* Load the environment variables *)
  let* _ := godotenv_Load in
  (* Get the service name from the environment variables *)
  let* serviceName := os_Getenv "OTEL_SERVICE_NAME" in
  let* serviceName :=
    if bool_decide (serviceName = "")
    then log_Println "OTEL_SERVICE_NAME not set, using default" ;;;
         ret "TestService"
    else ret serviceName in
  (* Get the collector URL from the environment variables *)
  let* collectorURL := os_Getenv "OTEL_COLLECTOR_URL" in
  (if bool_decide (collectorURL = "")
   then log_Println "OTEL_COLLECTOR_URL not set, trace export will be skipped"
   else ret tt) ;;;
  (* Get the tls support state from the environment variables *)
  let* v := os_Getenv "OTEL_SUPPORT_TLS" in
  let* supportTLS :=
    match strconv.ParseBool v with
    | (_, Some err) =>
        log_Printf "Failed to parse OTEL_SUPPORT_TLS, using default. %v"
          [log.ArgNumError err] ;;;
        ret false
    | (supportTLS, None) => ret supportTLS
    end in
  (* Initialize the trace provider *)
  let* err := initTraceProvider serviceName collectorURL supportTLS in
  match err with
  | Some e => log_Fatalf "Failed to set up the trace provider. %v" [log.ArgError e]
  | None => ret tt
  end.

(** [func SetupOtelHelper()]: [once.Do] runs the function if it has not run
    yet, and marks it done when it returns. *)
Definition SetupOtelHelper : M unit :=
  let* done := get otelOnce in
  if done then ret tt
  else initOtelHelper ;;; modify (set_otelOnce true).

End WithExternals.
End otelHelper.

(* ================================================================== *)
(** ** Package loggingHelper (logHelper.go, logHooks.go, logFunctions.go,
       logLevel.go) *)
(* ================================================================== *)

Module loggingHelper.
Import hooks.
Section WithExternals.
Context `{ext : Externals}.

(** [fmt.Sprintf("%d", v)] *)
Definition Sprintf_d (v : Z) : string := NilZero.string_of_int (Z.to_int v).

(** *** The hooks: for which levels they are activated *)

Definition LogrusContextHook_Levels : list logrus.Level :=
  [logrus.DebugLevel; logrus.WarnLevel; logrus.ErrorLevel;
   logrus.FatalLevel; logrus.PanicLevel].

Definition LogrusOtelHook_Levels : list logrus.Level :=
  [logrus.WarnLevel; logrus.ErrorLevel; logrus.FatalLevel; logrus.PanicLevel].

Definition LogrusOtelShutdownHook_Levels : list logrus.Level :=
  [logrus.FatalLevel; logrus.PanicLevel].

(** The method [Levels] of the interface [logrus.Hook]. *)
Definition Levels (hook : Hook) : list logrus.Level :=
  match hook with
  | LogrusContextHook => LogrusContextHook_Levels
  | LogrusOtelHook => LogrusOtelHook_Levels
  | LogrusOtelShutdownHook => LogrusOtelShutdownHook_Levels
  end.

(** [LevelHooks.Add] and [logger.AddHook] of logrus: the hook is appended
    to the hooks of each of its levels. *)
Definition LevelHooks_Add (hook : Hook) (hs : LevelHooks) : LevelHooks :=
  foldl (fun (hs : LevelHooks) (level : logrus.Level) =>
           fun l => if decide (l = level) then hs l ++ [hook] else hs l)
        hs (Levels hook).

Definition AddHook (hook : Hook) (lg : Logger) : Logger :=
  mkLogger (LevelHooks_Add hook (Hooks lg)) (LoggerFormatter lg) (LoggerLevel lg).

(** *** The logger *)

(** [func initLogHelper()] *)
Definition initLogHelper : M unit :=
  let logrusLogger := New in
  let logrusLogger := SetLevel logrus.InfoLevel logrusLogger in
  let logrusLogger := SetFormatter (JSONFormatter time.RFC3339) logrusLogger in
  let logrusLogger := AddHook LogrusContextHook logrusLogger in
  let logrusLogger := AddHook LogrusOtelHook logrusLogger in
  let logrusLogger := AddHook LogrusOtelShutdownHook logrusLogger in
  modify (set_logHelper (Some logrusLogger)).

(** [func GetLogHelper() *LogHelper]; the result is nil only if the
    variable [logHelper] is. *)
Definition GetLogHelper : M (option Logger) :=
  let* done := get logOnce in
  (if done then ret tt
   else initLogHelper ;;; modify (set_logOnce true)) ;;;
  get logHelper.

(** The methods of [*LogHelper] (logFunctions.go); [lh.Logger] of a nil
    [lh] panics. *)
Definition LogHelper_Log (lh : option Logger) (level : logrus.Level)
    (ctx : option otel.Context) (args : list log.Arg) : M unit :=
  match lh with
  | None => panic "invalid memory address or nil pointer dereference"
  | Some logger => Entry_Log logger ctx level args
  end.

Definition Debug lh ctx args := LogHelper_Log lh logrus.DebugLevel ctx args.
Definition Info lh ctx args := LogHelper_Log lh logrus.InfoLevel ctx args.
Definition Warn lh ctx args := LogHelper_Log lh logrus.WarnLevel ctx args.
Definition Error lh ctx args := LogHelper_Log lh logrus.ErrorLevel ctx args.
Definition Fatal lh ctx args := LogHelper_Log lh logrus.FatalLevel ctx args.

(** [func SetLogLevel(level Level)] *)
Definition SetLogLevel (level : Level.Level) : M unit :=
  let* lh := GetLogHelper in
  match lh with
  | None => panic "invalid memory address or nil pointer dereference"
  | Some logger =>
      modify (set_logHelper (Some (SetLevel (Level.getLogrusLevel level) logger)))
  end.

(** *** The hooks: what they do with an entry

    [Fire] receives a pointer to the entry: the entry is returned with
    the error. *)

(** [func (hook LogrusContextHook) Fire(entry *logrus.Entry) error] *)
Definition LogrusContextHook_Fire (entry : Entry) : M (Entry * option errors.error) :=
  (* Retrieve the call stack *)
  let* caller := get (runtime_Caller 7) in
  record_call (CallCaller 7) ;;;
  match caller with
  | None =>
      let err := errors.New
        "unable to retrieve the caller information and thus the file and line number" in
      let* lh := GetLogHelper in
      Debug lh (Context entry) [log.ArgError err] ;;;
      (* The hook should not return an error *)
      ret (entry, None)
  | Some (file, line) =>
      (* Add the file and line number to the log entry *)
      let data := <["file" := VString file]> (Data entry) in
      let data := <["line" := VInt line]> data in
      ret (mkEntry data (Time entry) (Level entry) (Message entry) (Context entry),
           None)
  end.

(** The helper of [LogrusOtelHook.Fire] that checks the type and sets a
    default value. *)
Definition getAttributeValue (entry : Entry) (key defaultValue : string)
    : otel.KeyValue :=
  match Data entry !! key with
  | Some (VString v) => otel.String key v
  | Some (VInt v) => otel.String key (Sprintf_d v)
  | _ => otel.String key defaultValue
  end.

(** [func addEvent(ctx context.Context, args ...attribute.KeyValue)] *)
Definition addEvent (ctx : option otel.Context) (args : list otel.KeyValue) : M unit :=
  let span := otel.SpanFromContext ctx in
  match span with
  | Some s =>
      (* Add the event to the span *)
      modify (fun w => set_spans (otel.AddEvent s "log" args (spans w)) w)
  | None => ret tt
  end.

(** [func (hook LogrusOtelHook) Fire(entry *logrus.Entry) error] *)
Definition LogrusOtelHook_Fire (entry : Entry) : M (Entry * option errors.error) :=
  (* Create attributes *)
  let messageValue := otel.String "msg" (Message entry) in
  let levelValue := otel.String "level" (logrus.String (Level entry)) in
  let fileValue := getAttributeValue entry "file" "unknown" in
  let lineValue := getAttributeValue entry "line" "unknown" in
  let timeValue := otel.String "time" (Time_Format (Time entry) time.RFC3339) in
  addEvent (Context entry) [messageValue; levelValue; fileValue; lineValue; timeValue] ;;;
  ret (entry, None).

(** The same method in the first revision of logHelper.go (package main),
    where the attribute of the message has the key of the level. *)
Definition LogrusOtelHook_Fire_main (entry : Entry) : M (Entry * option errors.error) :=
  let messageValue := otel.String "level" (Message entry) in
  let levelValue := otel.String "level" (logrus.String (Level entry)) in
  let fileValue := getAttributeValue entry "file" "unknown" in
  let lineValue := getAttributeValue entry "line" "unknown" in
  let timeValue := otel.String "time" (Time_Format (Time entry) time.RFC3339) in
  addEvent (Context entry) [messageValue; levelValue; fileValue; lineValue; timeValue] ;;;
  ret (entry, None).

(** [func (hook LogrusOtelShutdownHook) Fire(entry *logrus.Entry) error] *)
Definition LogrusOtelShutdownHook_Fire (entry : Entry) : M (Entry * option errors.error) :=
  otelHelper.Shutdown ;;;
  ret (entry, None).

(** The method [Fire] of the interface [logrus.Hook]. *)
Definition Fire (hook : Hook) (entry : Entry) : M (Entry * option errors.error) :=
  match hook with
  | LogrusContextHook => LogrusContextHook_Fire entry
  | LogrusOtelHook => LogrusOtelHook_Fire entry
  | LogrusOtelShutdownHook => LogrusOtelShutdownHook_Fire entry
  end.

(** [LevelHooks.Fire] of logrus: the hooks of the level fire in the order
    in which they were added; the first error stops the loop and is
    returned. *)
Fixpoint fire_each (hs : list Hook) (entry : Entry) : M (Entry * option errors.error) :=
  match hs with
  | [] => ret (entry, None)
  | hook :: rest =>
      let* r := Fire hook entry in
      match r with
      | (entry', Some err) => ret (entry', Some err)
      | (entry', None) => fire_each rest entry'
      end
  end.

Definition LevelHooks_Fire (hs : LevelHooks) (level : logrus.Level) (entry : Entry)
    : M (Entry * option errors.error) :=
  fire_each (hs level) entry.

End WithExternals.
End loggingHelper.

(* ================================================================== *)
(** ** A process that uses the connection manager *)
(* ================================================================== *)

Module process.

(** The two entry points of [otelHelper]. *)
Inductive ApiCall : Type :=
| DoSetupOtelHelper
| DoShutdown.

Section WithExternals.
Context `{ext : Externals}.

Definition step (c : ApiCall) : M unit :=
  match c with
  | DoSetupOtelHelper => otelHelper.SetupOtelHelper
  | DoShutdown => otelHelper.Shutdown
  end.

(** The calls of a process, one after the other; nothing runs after the
    process has ended. *)
Fixpoint run (cs : list ApiCall) : M unit :=
  match cs with
  | [] => ret tt
  | c :: rest => step c ;;; run rest
  end.

(** The drain of a registry, as a relation between the world before and
    the world after: each function is called in turn; when it returns
    an error, one line is logged and the drain goes on. *)
Inductive Drained : list ShutdownFunc -> World -> World -> Prop :=
| Drained_nil w :
    Drained [] w w
| Drained_ok f rest w w1 w' :
    otelHelper.call_shutdown f w = Return None w1 ->
    Drained rest w1 w' ->
    Drained (f :: rest) w w'
| Drained_failed f rest w w1 e w' :
    otelHelper.call_shutdown f w = Return (Some e) w1 ->
    Drained rest
      (set_logged
         (logged w1 ++ [log.mkLine "Failed to shut down the service. %v" [log.ArgError e]])
         w1)
      w' ->
    Drained (f :: rest) w w'.

End WithExternals.

(** A process that has just started. *)
Definition fresh (env : gmap string string) (file : option (gmap string string))
    (sp : gmap nat otel.SpanData) : World :=
  mkWorld env file [] None None [] false [] sp None false.

(** The calls that invoking a registered function makes. *)
Definition footprint (f : ShutdownFunc) : list Call :=
  [CallProviderShutdown (closure_tp f); CallExporterShutdown (closure_exporter f)].

Definition is_init (c : Call) : bool :=
  match c with CallSetTextMapPropagator _ => true | _ => false end.

Definition is_New (c : Call) : bool :=
  match c with CallNew _ => true | _ => false end.

Definition is_provider_shutdown (c : Call) : bool :=
  match c with CallProviderShutdown _ => true | _ => false end.

Definition count (p : Call -> bool) (cs : list Call) : nat :=
  length (filter (fun c => p c = true) cs).

Definition is_DoShutdown (c : ApiCall) : bool :=
  match c with DoShutdown => true | DoSetupOtelHelper => false end.

(** The number of [Shutdown] calls that come after the first
    [SetupOtelHelper]. *)
Fixpoint shutdowns_after_setup (cs : list ApiCall) : nat :=
  match cs with
  | [] => 0%nat
  | DoShutdown :: rest => shutdowns_after_setup rest
  | DoSetupOtelHelper :: rest => length (filter (fun c => is_DoShutdown c = true) rest)
  end.

(** The environment that [os.Getenv] sees once the [.env] file is loaded. *)
Definition effective_environ (w : World) : gmap string string :=
  match dotenv w with
  | None => environ w
  | Some file => environ w ∪ file
  end.

Definition setting (key : string) (w : World) : string :=
  default "" (effective_environ w !! key).

(** The identifier of the span of the context, when the context carries a
    span of the SDK that is recording. *)
Definition active_span (sp : gmap nat otel.SpanData) (ctx : option otel.Context)
    : option nat :=
  match ctx with
  | Some c =>
      match otel.currentSpan c with
      | Some (otel.sdkSpan id) =>
          match sp !! id with
          | Some d => if otel.recording d then Some id else None
          | None => None
          end
      | _ => None
      end
  | None => None
  end.

(** "Warn or above" for an entry of logrus. *)
Definition warn_or_above (l : logrus.Level) : Prop :=
  logrus.at_least l logrus.WarnLevel.

(** The logger that [initLogHelper] builds. *)
Definition built_logger : hooks.Logger :=
  loggingHelper.AddHook hooks.LogrusOtelShutdownHook
    (loggingHelper.AddHook hooks.LogrusOtelHook
       (loggingHelper.AddHook hooks.LogrusContextHook
          (hooks.SetFormatter (hooks.JSONFormatter time.RFC3339)
             (hooks.SetLevel logrus.InfoLevel hooks.New)))).

(** The event that the trace bridge builds for an entry; [msgKey] is the
    key of the attribute of the message. *)
Definition log_event `{ext : Externals} (msgKey : string) (entry : hooks.Entry)
    : otel.Event :=
  otel.mkEvent "log"
    [otel.String msgKey (hooks.Message entry);
     otel.String "level" (logrus.String (hooks.Level entry));
     loggingHelper.getAttributeValue entry "file" "unknown";
     loggingHelper.getAttributeValue entry "line" "unknown";
     otel.String "time" (Time_Format (hooks.Time entry) time.RFC3339)].

(** The entry once the call-site hook has stored the file and the line. *)
Definition annotated (entry : hooks.Entry) (file : string) (line : Z) : hooks.Entry :=
  hooks.mkEntry
    (<["line" := hooks.VInt line]> (<["file" := hooks.VString file]> (hooks.Data entry)))
    (hooks.Time entry) (hooks.Level entry) (hooks.Message entry) (hooks.Context entry).

(** The variables of [loggingHelper] agree: once [once.Do] has run,
    [logHelper] is set. *)
Definition log_consistent (w : World) : Prop :=
  logOnce w = true -> is_Some (logHelper w).

(** The messages that the registered function wraps the two errors with. *)
Definition provider_wrap : string := "Failed to shut down the tracer provider.".
Definition exporter_wrap : string := "Failed to shut down the SigNoz exporter.".

Definition events_of (sp : gmap nat otel.SpanData) (id : nat) : list otel.Event :=
  match sp !! id with
  | Some d => otel.events d
  | None => []
  end.

(** *** The settings that [initOtelHelper] reads *)

Definition the_propagator : otel.CompositePropagator :=
  otel.NewCompositeTextMapPropagator [otel.TraceContext; otel.Baggage].

Definition add_line (l : log.Line) (w : World) : World :=
  set_logged (logged w ++ [l]) w.

Definition serviceName_of (w : World) : string :=
  if bool_decide (setting "OTEL_SERVICE_NAME" w = "") then "TestService"
  else setting "OTEL_SERVICE_NAME" w.

Definition collectorURL_of (w : World) : string := setting "OTEL_COLLECTOR_URL" w.

Definition supportTLS_of (w : World) : bool :=
  match strconv.ParseBool (setting "OTEL_SUPPORT_TLS" w) with
  | (_, Some _) => false
  | (supportTLS, None) => supportTLS
  end.

Definition tls_warning (err : strconv.NumError) : log.Line :=
  log.mkLine "Failed to parse OTEL_SUPPORT_TLS, using default. %v" [log.ArgNumError err].

(** The lines that [initOtelHelper] logs about its settings. *)
Definition setting_lines (w : World) : list log.Line :=
  (if bool_decide (setting "OTEL_SERVICE_NAME" w = "")
   then [log.mkLine "OTEL_SERVICE_NAME not set, using default" []] else []) ++
  (if bool_decide (setting "OTEL_COLLECTOR_URL" w = "")
   then [log.mkLine "OTEL_COLLECTOR_URL not set, trace export will be skipped" []]
   else []) ++
  match strconv.ParseBool (setting "OTEL_SUPPORT_TLS" w) with
  | (_, Some err) => [tls_warning err]
  | (_, None) => []
  end.

(** The world in which [initOtelHelper] calls [initTraceProvider]: the
    propagator is set, the [.env] file is loaded, and the lines about
    missing or unreadable settings are logged. *)
Definition configured (w : World) : World :=
  set_logged (logged w ++ setting_lines w)
    (set_environ (effective_environ w)
       (set_calls (calls w ++ [CallSetTextMapPropagator the_propagator])
          (set_textMapPropagator (Some the_propagator) w))).

(** The options with which the exporter is built on the insecure path. *)
Definition insecure_options (url : string) : list otel.ExporterOption :=
  [otel.WithEndpoint url; otel.WithInsecure].

Definition insecure_line : log.Line :=
  log.mkLine "Insecure connection to the collector" [].

Definition tls_line : log.Line := log.mkLine "TLS is not implemented yet" [].

Definition exporter_wrap_message : string := "Failed to create OTLP exporter".

Definition fatal_line (e : errors.error) : log.Line :=
  log.mkLine "Failed to set up the trace provider. %v" [log.ArgError e].

(** The tracer provider and the function that a successful
    [initTraceProvider] creates. *)
Definition provider_for (serviceName url : string) : otel.TracerProvider :=
  otel.NewTracerProvider
    [otel.WithBatcher (otel.mkExporter (insecure_options url));
     otel.WithResource otel.SchemaURL [otel.String otel.ServiceNameKey serviceName]].

Definition closure_for (serviceName url : string) : ShutdownFunc :=
  mkShutdownFunc (provider_for serviceName url) (otel.mkExporter (insecure_options url)).

(** The outcome of the first [SetupOtelHelper] on the insecure path. *)
Definition insecure_outcome `{ext : Externals} (w : World) : Outcome unit :=
  let url := collectorURL_of w in
  let name := serviceName_of w in
  let w1 := add_line insecure_line (configured w) in
  let w2 := set_calls (calls w1 ++ [CallNew (insecure_options url)]) w1 in
  match otlptracegrpc_New (insecure_options url) (calls w1) with
  | Some e =>
      Exit 1 (add_line (fatal_line (errors.withMessage e exporter_wrap_message)) w2)
  | None =>
      Return tt
        (set_otelOnce true
           (set_shutdownFuncs (shutdownFuncs w ++ [closure_for name url])
              (set_calls (calls w2 ++ [CallSetTracerProvider (provider_for name url)])
                 (set_tracerProvider (Some (provider_for name url)) w2))))
  end.

(** "The exporter connection is configured with an insecure transport":
    after the propagator, the only exporter that setup asks for has the
    options endpoint and insecure; the line about the insecure connection
    is logged; and when setup returns, the function it has registered is
    the one over that exporter. *)
Definition insecure_transport (w : World) (o : Outcome unit) : Prop :=
  (exists rest : list Call,
      calls (world_of o) =
        calls w ++ [CallSetTextMapPropagator the_propagator;
                    CallNew (insecure_options (collectorURL_of w))] ++ rest /\
      Forall (fun c => is_New c = false) rest) /\
  insecure_line ∈ logged (world_of o) /\
  (returns o = true ->
   shutdownFuncs (world_of o) =
     shutdownFuncs w ++ [closure_for (serviceName_of w) (collectorURL_of w)]).

(** Two outcomes that differ by one logged line only (and by the
    environment of the process). *)
Definition same_but_for_line (l : log.Line) (o o2 : Outcome unit) : Prop :=
  returns o = returns o2 /\
  calls (world_of o) = calls (world_of o2) /\
  shutdownFuncs (world_of o) = shutdownFuncs (world_of o2) /\
  tracerProvider (world_of o) = tracerProvider (world_of o2) /\
  otelOnce (world_of o) = otelOnce (world_of o2) /\
  exists pre post : list log.Line,
    logged (world_of o) = pre ++ [l] ++ post /\
    logged (world_of o2) = pre ++ post.

(** The same process, started with [OTEL_SUPPORT_TLS=false]. *)
Definition with_tls_false (w : World) : World :=
  set_environ (<["OTEL_SUPPORT_TLS" := "false"]> (environ w)) w.

End process.

(* ================================================================== *)
(** ** Sample surroundings, for concrete runs *)
(* ================================================================== *)

Module samples.

Definition print_time (t : time.Time) (layout : string) : string :=
  if bool_decide (layout = time.RFC3339) then "2024-05-01T12:00:00Z" else "".

(** Everything succeeds; the caller is found. *)
Definition healthy : Externals :=
  mkExternals
    (fun _ _ => None) (fun _ _ => None) (fun _ _ => None)
    print_time
    (fun _ _ => Some ("/app/main.go", 37))
    (fun _ _ _ _ => ret tt).

(** The exporter cannot be built. *)
Definition no_exporter : Externals :=
  mkExternals
    (fun _ _ => Some (errors.fundamental "context deadline exceeded"))
    (fun _ _ => None) (fun _ _ => None)
    print_time
    (fun _ _ => Some ("/app/main.go", 37))
    (fun _ _ _ _ => ret tt).

(** Both shutdowns fail. *)
Definition failing_shutdown : Externals :=
  mkExternals
    (fun _ _ => None)
    (fun _ _ => Some (errors.fundamental "provider timeout"))
    (fun _ _ => Some (errors.fundamental "connection refused"))
    print_time
    (fun _ _ => Some ("/app/main.go", 37))
    (fun _ _ _ _ => ret tt).

Definition exporter_a : otel.Exporter :=
  otel.mkExporter [otel.WithEndpoint "a:4317"; otel.WithInsecure].
Definition exporter_b : otel.Exporter :=
  otel.mkExporter [otel.WithEndpoint "b:4317"; otel.WithInsecure].
Definition closure_a : ShutdownFunc :=
  mkShutdownFunc (otel.NewTracerProvider [otel.WithBatcher exporter_a]) exporter_a.
Definition closure_b : ShutdownFunc :=
  mkShutdownFunc (otel.NewTracerProvider [otel.WithBatcher exporter_b]) exporter_b.

(** A started process with an empty environment and no [.env] file. *)
Definition bare : World := process.fresh ∅ None ∅.

(** A process whose environment asks for TLS. *)
Definition wants_tls : World :=
  process.fresh {["OTEL_SUPPORT_TLS" := "true"]} None ∅.

(** A process with one recording span, 7, and a warning logged under it. *)
Definition one_span : World :=
  process.fresh ∅ None {[7%nat := otel.mkSpanData true []]}.

Definition noon : time.Time := time.mkTime 1714564800 0 0.

Definition warning (ctx : option otel.Context) : hooks.Entry :=
  hooks.mkEntry
    (<["line" := hooks.VInt 37]> (<["file" := hooks.VString "/app/main.go"]> ∅))
    noon logrus.WarnLevel "disk almost full" ctx.

Definition in_span_7 : option otel.Context :=
  Some (otel.mkContext (Some (otel.sdkSpan 7))).

End samples.

(* ================================================================== *)
(** ** The single-file revision of package otelHelper *)
(* ================================================================== *)

(** In the revision that holds the whole package in one file, [Shutdown],
    [initTraceProvider] and [SetupOtelHelper] are as above;
    [initOtelHelper] gives the collector URL a default. *)
Module otelHelperSingleFile.
Section WithExternals.
Context `{ext : Externals}.

(** [func initOtelHelper()] *)
Definition initOtelHelper : M unit :=
  (* Set the global text map propagator *)
  let prop := otel.NewCompositeTextMapPropagator [otel.TraceContext; otel.Baggage] in
  modify (set_textMapPropagator (Some prop)) ;;;
  record_call (CallSetTextMapPropagator prop) ;;;
  (* Load the environment variables *)
  let* _ := godotenv_Load in
  (* Get the service name from the environment variables *)
  let* serviceName := os_Getenv "OTEL_SERVICE_NAME" in
  let* serviceName :=
    if bool_decide (serviceName = "")
    then log_Println "OTEL_SERVICE_NAME not set, using default" ;;;
         ret "TestService"
    else ret serviceName in
  (* Get the collector URL from the environment variables *)
  let* collectorURL := os_Getenv "OTEL_COLLECTOR_URL" in
  let* collectorURL :=
    if bool_decide (collectorURL = "")
    then log_Println "OTEL_COLLECTOR_URL not set, using default" ;;;
         ret "localhost:4317"
    else ret collectorURL in
  (* Get the tls support state from the environment variables *)
  let* v := os_Getenv "OTEL_SUPPORT_TLS" in
  let* supportTLS :=
    match strconv.ParseBool v with
    | (_, Some err) =>
        log_Printf "Failed to parse OTEL_SUPPORT_TLS, using default. %v"
          [log.ArgNumError err] ;;;
        ret false
    | (supportTLS, None) => ret supportTLS
    end in
  (* Initialize the trace provider *)
  let* err := otelHelper.initTraceProvider serviceName collectorURL supportTLS in
  match err with
  | Some e => log_Fatalf "Failed to set up the trace provider. %v" [log.ArgError e]
  | None => ret tt
  end.

(** [func SetupOtelHelper()] *)
Definition SetupOtelHelper : M unit :=
  let* done := get otelOnce in
  if done then ret tt
  else initOtelHelper ;;; modify (set_otelOnce true).

End WithExternals.
End otelHelperSingleFile.

(* ================================================================== *)
(** ** Further notions for the properties *)
(* ================================================================== *)

Module notions.

(** The values of [OTEL_SUPPORT_TLS] that [strconv.ParseBool] reads as
    true. *)
Definition true_spellings : list string := ["1"; "t"; "T"; "TRUE"; "true"; "True"].

(** The line about a missing collector URL. *)
Definition skipped_line : log.Line :=
  log.mkLine "OTEL_COLLECTOR_URL not set, trace export will be skipped" [].

(** The line of the loop of [Shutdown] for an error. *)
Definition failure_line (e : errors.error) : log.Line :=
  log.mkLine "Failed to shut down the service. %v" [log.ArgError e].

Definition is_failure_line (l : log.Line) : Prop :=
  log.format l = "Failed to shut down the service. %v".

(** The logger that [GetLogHelper] returns in a world: the one stored, or
    the one that [initLogHelper] builds when none has been built yet. *)
Definition current_logger (w : World) : option hooks.Logger :=
  if logOnce w then logHelper w else Some process.built_logger.

(** The event that the trace bridge builds for an entry without file and
    line. *)
Definition unknown_event `{ext : Externals} (entry : hooks.Entry) : otel.Event :=
  otel.mkEvent "log"
    [otel.String "msg" (hooks.Message entry);
     otel.String "level" (logrus.String (hooks.Level entry));
     otel.String "file" "unknown";
     otel.String "line" "unknown";
     otel.String "time" (Time_Format (hooks.Time entry) time.RFC3339)].

(** The calls of the call-site hook for a level: one lookup of the caller
    where the hook is activated. *)
Definition caller_lookups (l : logrus.Level) : list Call :=
  if bool_decide (l ∈ loggingHelper.LogrusContextHook_Levels) then [CallCaller 7] else [].

(** Two entries that differ at most in the fields file and line. *)
Definition same_but_call_site (e e' : hooks.Entry) : Prop :=
  hooks.Time e' = hooks.Time e /\
  hooks.Level e' = hooks.Level e /\
  hooks.Message e' = hooks.Message e /\
  hooks.Context e' = hooks.Context e /\
  forall k : string, k <> "file" -> k <> "line" ->
    hooks.Data e' !! k = hooks.Data e !! k.

(** The severities in the order of the enumeration, with the value of the
    logrus level of each. *)
Definition severity_rank (l : Level.Level) : Z := logrus.value (Level.getLogrusLevel l).

(** *** The settings in the single-file revision *)






End notions.

(* ================================================================== *)
(** ** Earlier revisions of the logger *)
(* ================================================================== *)

(** The revision that holds package [loggingHelper] in one file: the hooks
    are those above, but there is no shutdown hook yet. *)
Module loggingHelperSingleFile.

(** [func initLogHelper()] *)
Definition initLogHelper : M unit :=
  let logrusLogger := hooks.New in
  let logrusLogger := hooks.SetLevel logrus.InfoLevel logrusLogger in
  let logrusLogger :=
    hooks.SetFormatter (hooks.JSONFormatter time.RFC3339) logrusLogger in
  let logrusLogger := loggingHelper.AddHook hooks.LogrusContextHook logrusLogger in
  let logrusLogger := loggingHelper.AddHook hooks.LogrusOtelHook logrusLogger in
  modify (set_logHelper (Some logrusLogger)).

(** The logger that it builds. *)
Definition built_logger : hooks.Logger :=
  loggingHelper.AddHook hooks.LogrusOtelHook
    (loggingHelper.AddHook hooks.LogrusContextHook
       (hooks.SetFormatter (hooks.JSONFormatter time.RFC3339)
          (hooks.SetLevel logrus.InfoLevel hooks.New))).

End loggingHelperSingleFile.

(** The first revision of logHelper.go (package main). *)
Module mainPackage.
Section WithExternals.
Context `{ext : Externals}.

(** [func (hook LogrusContextHook) Fire(entry *logrus.Entry) error] *)
Definition LogrusContextHook_Fire (entry : hooks.Entry)
    : M (hooks.Entry * option errors.error) :=
  (* Retrieve the call stack *)
  let* caller := get (runtime_Caller 6) in
  record_call (CallCaller 6) ;;;
  (* Add the file and line number to the log entry *)
  match caller with
  | Some (file, line) =>
      let data := <["file" := hooks.VString file]> (hooks.Data entry) in
      let data := <["line" := hooks.VInt line]> data in
      ret (hooks.mkEntry data (hooks.Time entry) (hooks.Level entry)
             (hooks.Message entry) (hooks.Context entry), None)
  | None => ret (entry, None)
  end.

End WithExternals.

(** [func initLogHelper()] *)
Definition initLogHelper : M unit :=
  let logrusLogger := hooks.New in
  let logrusLogger :=
    hooks.SetFormatter (hooks.JSONFormatter time.RFC3339) logrusLogger in
  let logrusLogger := loggingHelper.AddHook hooks.LogrusContextHook logrusLogger in
  let logrusLogger := loggingHelper.AddHook hooks.LogrusOtelHook logrusLogger in
  modify (set_logHelper (Some logrusLogger)).

End mainPackage.

(** A surrounding in which [runtime.Caller] finds no frame. *)
Definition no_caller : Externals :=
  mkExternals
    (fun _ _ => None) (fun _ _ => None) (fun _ _ => None)
    samples.print_time
    (fun _ _ => None)
    (fun _ _ _ _ => ret tt).

(* ================================================================== *)
(** * Properties *)
(* ================================================================== *)

(** ** The monad *)

Lemma bind_Return {A B} (m : M A) (k : A -> M B) w a w1 :
  m w = Return a w1 -> bind m k w = k a w1.
Proof. intros H. unfold bind. now rewrite H. Qed.

Lemma bind_Exit {A B} (m : M A) (k : A -> M B) w code w1 :
  m w = Exit code w1 -> bind m k w = Exit code w1.
Proof. intros H. unfold bind. now rewrite H. Qed.

Ltac run_monad :=
  unfold bind, get, modify, ret, record_call, log_Println, log_Fatal,
    log_Fatalf, log_Printf, os_Exit, os_Getenv, panic; simpl.

(** ** The severity enumeration *)

Section Severity.
Import Level.

Lemma enumeration_cases (l : Level) :
  l ∈ enumeration -> l = Debug \/ l = Info \/ l = Warn \/ l = Error \/ l = Fatal.
Proof.
  unfold enumeration. rewrite !elem_of_cons, elem_of_nil. tauto.
Qed.

Lemma getLogrusLevel_default (l : Level) :
  l ∉ enumeration -> getLogrusLevel l = logrus.DebugLevel.
Proof.
  unfold enumeration. rewrite !not_elem_of_cons. intros (H0 & H1 & H2 & H3 & H4 & _).
  unfold getLogrusLevel. repeat case_decide; congruence.
Qed.

(** C8.  On the five declared severities, the translation to logrus is
    injective (distinct severities get distinct logrus levels), every
    severity prints as its own name, the names are distinct, and the
    logrus level of a severity determines its name. *)
Theorem severity_round_trip (a b : Level)
    (Ha : a ∈ enumeration) (Hb : b ∈ enumeration) :
  (getLogrusLevel a = getLogrusLevel b -> a = b) /\
  (String a = String b -> a = b) /\
  (getLogrusLevel a = getLogrusLevel b -> String a = String b) /\
  map getLogrusLevel enumeration =
    [logrus.DebugLevel; logrus.InfoLevel; logrus.WarnLevel;
     logrus.ErrorLevel; logrus.FatalLevel] /\
  map String enumeration = ["Debug"; "Info"; "Warn"; "Error"; "Fatal"].
Proof.
  apply enumeration_cases in Ha, Hb.
  assert (Hinj : getLogrusLevel a = getLogrusLevel b -> a = b).
  { destruct Ha as [->|[->|[->|[->| ->]]]], Hb as [->|[->|[->|[->| ->]]]];
      vm_compute; congruence. }
  repeat split; try reflexivity; try exact Hinj.
  - destruct Ha as [->|[->|[->|[->| ->]]]], Hb as [->|[->|[->|[->| ->]]]];
      vm_compute; congruence.
  - intros H. now rewrite (Hinj H).
Qed.

Lemma severity_round_trip_witness :
  (getLogrusLevel Warn = getLogrusLevel Error -> Warn = Error) /\
  (String Warn = String Error -> Warn = Error) /\
  (getLogrusLevel Warn = getLogrusLevel Error -> String Warn = String Error) /\
  map getLogrusLevel enumeration =
    [logrus.DebugLevel; logrus.InfoLevel; logrus.WarnLevel;
     logrus.ErrorLevel; logrus.FatalLevel] /\
  map String enumeration = ["Debug"; "Info"; "Warn"; "Error"; "Fatal"].
Proof.
  apply (severity_round_trip Warn Error); unfold enumeration; set_solver.
Defined.

End Severity.


(** ** The logger singleton and its level *)

Section LoggerLevel.
Import Level.

Lemma GetLogHelper_returns (w : World) :
  process.log_consistent w ->
  exists lg w',
    loggingHelper.GetLogHelper w = Return (Some lg) w' /\
    logHelper w' = Some lg /\ logOnce w' = true.
Proof.
  intros Hc. unfold loggingHelper.GetLogHelper, loggingHelper.initLogHelper.
  run_monad. destruct (logOnce w) eqn:Ho; simpl.
  - destruct (Hc Ho) as [lg Hlg]. exists lg, w. now rewrite Hlg.
  - eexists _, _. split; [reflexivity | split; reflexivity].
Qed.

(** C10.  [getLogrusLevel] is total on [uint32]: a value that is none of
    the five constants takes the default branch, [logrus.DebugLevel].
    [SetLogLevel] therefore returns for every value, without a panic, and
    for such a value it leaves the threshold of the logger at Debug. *)
Theorem SetLogLevel_any_value (l : Level) (w : World)
    (Hrange : in_range l) (Hout : l ∉ enumeration) (Hw : process.log_consistent w) :
  getLogrusLevel l = logrus.DebugLevel /\
  exists lg w',
    loggingHelper.SetLogLevel l w = Return tt w' /\
    logHelper w' = Some lg /\
    hooks.LoggerLevel lg = logrus.DebugLevel.
Proof.
  split; [now apply getLogrusLevel_default |].
  destruct (GetLogHelper_returns w Hw) as (lg & w1 & Hg & _ & _).
  unfold loggingHelper.SetLogLevel.
  rewrite (bind_Return _ _ _ _ _ Hg). run_monad.
  eexists _, _. split; [reflexivity |]. split; [reflexivity |].
  simpl. now apply getLogrusLevel_default.
Qed.

Lemma SetLogLevel_any_value_witness :
  getLogrusLevel 4294967295 = logrus.DebugLevel /\
  exists lg w',
    loggingHelper.SetLogLevel 4294967295 samples.bare = Return tt w' /\
    logHelper w' = Some lg /\
    hooks.LoggerLevel lg = logrus.DebugLevel.
Proof.
  apply (SetLogLevel_any_value 4294967295 samples.bare).
  - unfold in_range. lia.
  - unfold enumeration, Debug, Info, Warn, Error, Fatal.
    rewrite !not_elem_of_cons. repeat split; try lia. apply not_elem_of_nil.
  - intros H. discriminate H.
Defined.

(** The translation is total: for a declared severity too, [SetLogLevel]
    returns and the threshold is the translated level. *)
Lemma SetLogLevel_sets_translation (l : Level) (w : World) :
  process.log_consistent w ->
  exists lg w',
    loggingHelper.SetLogLevel l w = Return tt w' /\
    logHelper w' = Some lg /\
    hooks.LoggerLevel lg = getLogrusLevel l.
Proof.
  intros Hw. destruct (GetLogHelper_returns w Hw) as (lg & w1 & Hg & _ & _).
  unfold loggingHelper.SetLogLevel.
  rewrite (bind_Return _ _ _ _ _ Hg). run_monad.
  eexists _, _. repeat split.
Qed.

End LoggerLevel.

(** ** The shutdown function and the drain of the registry *)

Section ShutdownProperties.
Context `{ext : Externals}.

(** What the registered function returns, from the two results. *)
Lemma call_shutdown_result (f : ShutdownFunc) (w : World) :
  otelHelper.call_shutdown f w =
    Return
      (match TracerProvider_Shutdown (closure_tp f) (calls w),
             Exporter_Shutdown (closure_exporter f)
               (calls w ++ [CallProviderShutdown (closure_tp f)]) with
       | Some e1, Some e2 =>
           Some (errors.withMessage (errors.withMessage e1 process.provider_wrap)
                   (errors.Error (errors.withMessage e2 process.exporter_wrap)))
       | Some e1, None => Some (errors.withMessage e1 process.provider_wrap)
       | None, Some e2 => Some (errors.withMessage e2 process.exporter_wrap)
       | None, None => None
       end)
      (set_calls (calls w ++ process.footprint f) w).
Proof.
  unfold otelHelper.call_shutdown. run_monad.
  destruct (TracerProvider_Shutdown _ _) as [e1|]; simpl;
    destruct (Exporter_Shutdown _ _) as [e2|]; simpl;
    unfold set_calls; simpl; rewrite <- app_assoc; reflexivity.
Qed.

End ShutdownProperties.

Section ShutdownClaims.
Context `{ext : Externals}.

(** C4.  The registered shutdown function calls the shutdown of the tracer
    provider and then that of the exporter.  When both fail it returns one
    error: the wrapped error of the provider, wrapped again with the text of
    the wrapped error of the exporter, so that its text names both causes
    and its cause is that of the provider's error.  When one fails it
    returns that error, wrapped; when none fails it returns nil. *)
Theorem shutdown_callback_errors (f : ShutdownFunc) (w : World) :
  let r1 := TracerProvider_Shutdown (closure_tp f) (calls w) in
  let r2 := Exporter_Shutdown (closure_exporter f)
              (calls w ++ [CallProviderShutdown (closure_tp f)]) in
  exists r w',
    otelHelper.call_shutdown f w = Return r w' /\
    match r1, r2 with
    | Some e1, Some e2 =>
        r = Some (errors.withMessage (errors.withMessage e1 process.provider_wrap)
                    (errors.Error (errors.withMessage e2 process.exporter_wrap))) /\
        errors.Error <$> r =
          Some ((process.exporter_wrap +:+ ": " +:+ errors.Error e2) +:+ ": " +:+
                process.provider_wrap +:+ ": " +:+ errors.Error e1) /\
        errors.Cause <$> r = Some (errors.Cause e1)
    | Some e1, None => r = Some (errors.withMessage e1 process.provider_wrap)
    | None, Some e2 => r = Some (errors.withMessage e2 process.exporter_wrap)
    | None, None => r = None
    end.
Proof.
  intros r1 r2. eexists _, _. split; [apply call_shutdown_result |].
  fold r1 r2. destruct r1 as [e1|], r2 as [e2|]; try reflexivity.
  repeat split.
Qed.

(** The loop of [Shutdown] returns for every registry, and drains it. *)
Lemma range_shutdownFuncs_drains (fs : list ShutdownFunc) :
  forall w, exists w',
    otelHelper.range_shutdownFuncs fs w = Return tt w' /\
    process.Drained fs w w' /\
    calls w' = calls w ++ concat (map process.footprint fs) /\
    shutdownFuncs w' = shutdownFuncs w /\
    otelOnce w' = otelOnce w /\
    spans w' = spans w.
Proof.
  induction fs as [|f rest IH]; intros w.
  - exists w. simpl. unfold ret. repeat split; [constructor | now rewrite app_nil_r].
  - pose proof (call_shutdown_result f w) as Hf.
    destruct (otelHelper.call_shutdown f w) as [r w1| |] eqn:Hcall; try discriminate Hf.
    injection Hf as _ Hw1.
    assert (Hc1 : calls w1 = calls w ++ process.footprint f) by now subst w1.
    assert (Hs1 : shutdownFuncs w1 = shutdownFuncs w) by now subst w1.
    assert (Ho1 : otelOnce w1 = otelOnce w) by now subst w1.
    assert (Hsp1 : spans w1 = spans w) by now subst w1.
    clear Hw1.
    simpl otelHelper.range_shutdownFuncs.
    rewrite (bind_Return _ _ _ _ _ Hcall).
    destruct r as [e|].
    + run_monad.
      match goal with |- context [otelHelper.range_shutdownFuncs rest ?w2] =>
        destruct (IH w2) as (w' & Hr & Hd & Hc & Hs & Ho & Hsp) end.
      exists w'. simpl in *.
      repeat split; try congruence.
      * eapply process.Drained_failed; [exact Hcall | exact Hd].
      * rewrite Hc, Hc1. now rewrite <- !app_assoc.
    + run_monad.
      destruct (IH w1) as (w' & Hr & Hd & Hc & Hs & Ho & Hsp).
      exists w'. simpl in *.
      repeat split; try congruence.
      * eapply process.Drained_ok; [exact Hcall | exact Hd].
      * rewrite Hc, Hc1. now rewrite <- !app_assoc.
Qed.

(** When each function fails, each failure is one more line of the log. *)
Lemma range_shutdownFuncs_logs_each (fs : list ShutdownFunc) :
  (forall tp h, TracerProvider_Shutdown tp h <> None) ->
  forall w, length (logged (world_of (otelHelper.range_shutdownFuncs fs w)))
            = (length (logged w) + length fs)%nat.
Proof.
  intros Hfail. induction fs as [|f rest IH]; intros w.
  - simpl. lia.
  - pose proof (call_shutdown_result f w) as Hf.
    simpl otelHelper.range_shutdownFuncs.
    rewrite (bind_Return _ _ _ _ _ Hf).
    destruct (TracerProvider_Shutdown (closure_tp f) (calls w)) as [e1|] eqn:H1;
      [| now apply Hfail in H1].
    destruct (Exporter_Shutdown _ _) as [e2|]; run_monad;
      rewrite IH; simpl; rewrite length_app; simpl; lia.
Qed.

(** C5.  [Shutdown] returns, and it has called every function of the
    registry, in the order of registration: the calls made are those of the
    first function, then those of the second, and so on, whatever each one
    returned.  A function that returns an error adds one line to the log
    and the drain goes on with the next; if every function fails there is
    one line for each. *)
Theorem Shutdown_drains_registry (w : World) :
  exists w',
    otelHelper.Shutdown w = Return tt w' /\
    process.Drained (shutdownFuncs w) w w' /\
    calls w' = calls w ++ concat (map process.footprint (shutdownFuncs w)) /\
    ((forall tp h, TracerProvider_Shutdown tp h <> None) ->
     length (logged w') = (length (logged w) + length (shutdownFuncs w))%nat).
Proof.
  destruct (range_shutdownFuncs_drains (shutdownFuncs w) w)
    as (w' & Hr & Hd & Hc & _).
  exists w'. unfold otelHelper.Shutdown. run_monad.
  repeat split; try assumption.
  intros Hfail.
  pose proof (range_shutdownFuncs_logs_each (shutdownFuncs w) Hfail w) as Hl.
  now rewrite Hr in Hl.
Qed.

End ShutdownClaims.

(** ** Setup *)

Section SetupProperties.
Context `{ext : Externals}.
Import process.

Lemma setting_effective (key : string) (w : World) (w0 : World) :
  environ w = effective_environ w0 ->
  default "" (environ w !! key) = setting key w0.
Proof. intros H. unfold setting. now rewrite H. Qed.

(** [initTraceProvider] when TLS is asked for: the process ends. *)
Lemma initTraceProvider_tls (serviceName url : string) (w : World) :
  otelHelper.initTraceProvider serviceName url true w = Exit 1 (add_line tls_line w).
Proof. reflexivity. Qed.

(** [initTraceProvider] on the insecure path. *)
Lemma initTraceProvider_insecure (serviceName url : string) (w : World) :
  otelHelper.initTraceProvider serviceName url false w =
    let w1 := add_line insecure_line w in
    let w2 := set_calls (calls w ++ [CallNew (insecure_options url)]) w1 in
    match otlptracegrpc_New (insecure_options url) (calls w) with
    | Some e => Return (Some (errors.withMessage e exporter_wrap_message)) w2
    | None =>
        Return None
          (set_shutdownFuncs (shutdownFuncs w ++ [closure_for serviceName url])
             (set_calls (calls w2 ++ [CallSetTracerProvider (provider_for serviceName url)])
                (set_tracerProvider (Some (provider_for serviceName url)) w2)))
    end.
Proof.
  unfold otelHelper.initTraceProvider. run_monad.
  destruct (otlptracegrpc_New _ _); reflexivity.
Qed.

(** [initOtelHelper] reads its settings and then calls
    [initTraceProvider]. *)
Lemma initOtelHelper_configured (w : World) :
  otelHelper.initOtelHelper w =
    match otelHelper.initTraceProvider (serviceName_of w) (collectorURL_of w)
            (supportTLS_of w) (configured w) with
    | Return (Some e) w' => Exit 1 (add_line (fatal_line e) w')
    | Return None w' => Return tt w'
    | Exit code w' => Exit code w'
    | Panic reason w' => Panic reason w'
    end.
Proof.
  unfold otelHelper.initOtelHelper, godotenv_Load.
  unfold configured, setting_lines, serviceName_of, collectorURL_of, supportTLS_of,
    setting, effective_environ, add_line.
  run_monad.
  destruct (dotenv w) as [file|]; simpl;
    repeat (case_bool_decide; simpl);
    destruct (strconv.ParseBool _) as [b [err|]]; simpl;
    unfold set_logged, set_environ, set_calls, set_textMapPropagator; simpl;
    rewrite <- ?app_assoc, ?app_nil_r; simpl;
    try contradiction;
    match goal with
    | |- match ?X with _ => _ end = match ?Y with _ => _ end =>
        change X with Y; destruct Y as [[e|] w'| |]
    end; reflexivity.
Qed.

End SetupProperties.

Section SetupOutcomes.
Context `{ext : Externals}.
Import process.

Lemma SetupOtelHelper_again (w : World) :
  otelOnce w = true -> otelHelper.SetupOtelHelper w = Return tt w.
Proof.
  intros H. unfold otelHelper.SetupOtelHelper. run_monad. now rewrite H.
Qed.

Lemma SetupOtelHelper_first (w : World) :
  otelOnce w = false ->
  otelHelper.SetupOtelHelper w =
    match otelHelper.initOtelHelper w with
    | Return _ w' => Return tt (set_otelOnce true w')
    | Exit code w' => Exit code w'
    | Panic reason w' => Panic reason w'
    end.
Proof.
  intros H. unfold otelHelper.SetupOtelHelper. run_monad. rewrite H.
  now destruct (otelHelper.initOtelHelper w).
Qed.

Lemma SetupOtelHelper_insecure (w : World) :
  otelOnce w = false -> supportTLS_of w = false ->
  otelHelper.SetupOtelHelper w = insecure_outcome w.
Proof.
  intros Hfirst Htls. rewrite (SetupOtelHelper_first w Hfirst).
  rewrite initOtelHelper_configured, Htls, initTraceProvider_insecure.
  unfold insecure_outcome. simpl.
  destruct (otlptracegrpc_New _ _); reflexivity.
Qed.

Lemma SetupOtelHelper_tls (w : World) :
  otelOnce w = false -> supportTLS_of w = true ->
  otelHelper.SetupOtelHelper w = Exit 1 (add_line tls_line (configured w)).
Proof.
  intros Hfirst Htls. rewrite (SetupOtelHelper_first w Hfirst).
  now rewrite initOtelHelper_configured, Htls, initTraceProvider_tls.
Qed.

Lemma supportTLS_cases (w : World) :
  supportTLS_of w = true \/ supportTLS_of w = false.
Proof. destruct (supportTLS_of w); auto. Qed.

End SetupOutcomes.

Section TlsSetting.
Context `{ext : Externals}.
Import process.

Lemma insecure_outcome_transport (w : World) :
  insecure_transport w (insecure_outcome w).
Proof.
  unfold insecure_transport, insecure_outcome, configured, add_line.
  destruct (otlptracegrpc_New _ _) as [e|]; simpl.
  - split; [exists []; split; [now rewrite <- !app_assoc | constructor] |].
    split; [| discriminate].
    rewrite !elem_of_app, !list_elem_of_singleton. auto.
  - split.
    { exists [CallSetTracerProvider (provider_for (serviceName_of w) (collectorURL_of w))].
      split; [now rewrite <- !app_assoc | repeat constructor]. }
    split; [| reflexivity].
    rewrite !elem_of_app, !list_elem_of_singleton. auto.
Qed.

Lemma ParseBool_error (v : string) (b : bool) (err : strconv.NumError) :
  strconv.ParseBool v = (b, Some err) ->
  b = false /\ err = strconv.syntaxError "ParseBool" v.
Proof.
  unfold strconv.ParseBool.
  repeat (destruct (strconv.one_of v _)); intros H; inversion H; auto.
Qed.

Lemma supportTLS_of_value (w : World) (v : string) :
  setting "OTEL_SUPPORT_TLS" w = v ->
  supportTLS_of w = match strconv.ParseBool v with
                    | (_, Some _) => false
                    | (b, None) => b
                    end.
Proof. intros <-. reflexivity. Qed.

Lemma effective_with_tls_false (w : World) :
  effective_environ (with_tls_false w) =
    <["OTEL_SUPPORT_TLS" := "false"]> (effective_environ w).
Proof.
  unfold effective_environ, with_tls_false. simpl.
  destruct (dotenv w); [| reflexivity]. now rewrite insert_union_l.
Qed.

Lemma setting_with_tls_false (w : World) (key : string) :
  key <> "OTEL_SUPPORT_TLS" ->
  setting key (with_tls_false w) = setting key w.
Proof.
  intros Hne. unfold setting. rewrite effective_with_tls_false.
  now rewrite lookup_insert_ne.
Qed.

Lemma setting_tls_with_tls_false (w : World) :
  setting "OTEL_SUPPORT_TLS" (with_tls_false w) = "false".
Proof.
  unfold setting. rewrite effective_with_tls_false.
  now rewrite lookup_insert_eq.
Qed.

Lemma ParseBool_false : strconv.ParseBool "false" = (false, None).
Proof. vm_compute. reflexivity. Qed.

Lemma ParseBool_true : strconv.ParseBool "true" = (true, None).
Proof. vm_compute. reflexivity. Qed.

Lemma ParseBool_empty :
  strconv.ParseBool "" = (false, Some (strconv.syntaxError "ParseBool" "")).
Proof. vm_compute. reflexivity. Qed.

(** An unreadable value gives the outcome of the value false, but for the
    warning. *)
Lemma unparsable_as_false (w : World) (err : strconv.NumError) :
  snd (strconv.ParseBool (setting "OTEL_SUPPORT_TLS" w)) = Some err ->
  same_but_for_line (tls_warning err)
    (insecure_outcome w) (insecure_outcome (with_tls_false w)).
Proof.
  intros Herr.
  unfold same_but_for_line, insecure_outcome, configured, setting_lines,
    serviceName_of, collectorURL_of, add_line.
  rewrite !setting_with_tls_false by discriminate.
  rewrite setting_tls_with_tls_false, ParseBool_false.
  destruct (strconv.ParseBool (setting "OTEL_SUPPORT_TLS" w)) as [b [err'|]];
    cbn [snd] in Herr; [| discriminate]. injection Herr as ->.
  generalize (setting "OTEL_SERVICE_NAME" w) (setting "OTEL_COLLECTOR_URL" w).
  intros name url. unfold with_tls_false.
  set (A := if bool_decide (name = "")
            then [log.mkLine "OTEL_SERVICE_NAME not set, using default" []] else []).
  set (B := if bool_decide (url = "")
            then [log.mkLine "OTEL_COLLECTOR_URL not set, trace export will be skipped" []]
            else []).
  cbn [calls logged set_logged set_calls set_environ set_textMapPropagator
       shutdownFuncs tracerProvider otelOnce environ dotenv textMapPropagator].
  destruct (otlptracegrpc_New _ _) as [e|];
    cbn [world_of returns calls logged set_logged set_calls set_environ
         set_textMapPropagator set_otelOnce set_shutdownFuncs set_tracerProvider
         shutdownFuncs tracerProvider otelOnce].
  - repeat (split; [reflexivity |]).
    exists (logged w ++ A ++ B),
      [insecure_line; fatal_line (errors.withMessage e exporter_wrap_message)].
    split; rewrite <- ?app_assoc; cbn [app]; rewrite ?app_nil_r; reflexivity.
  - repeat (split; [reflexivity |]).
    exists (logged w ++ A ++ B), [insecure_line].
    split; rewrite <- ?app_assoc; cbn [app]; rewrite ?app_nil_r; reflexivity.
Qed.

End TlsSetting.

Section SetupClaims.
Context `{ext : Externals}.
Import process.

(** C7.  In the first [SetupOtelHelper] of a process, the value [v] that
    [os.Getenv] finds for [OTEL_SUPPORT_TLS] decides the transport; [v] is
    read after the [.env] file is loaded, and it is the empty string when
    neither the environment nor the file sets the variable.  Not set, or false: the exporter is asked for with the
    options endpoint and insecure.  A value that [strconv.ParseBool]
    rejects: the same, a warning with the parse error is logged, and the
    outcome is that of a process started with the value false, but for
    that line.  The value true: the process ends with exit code 1 after
    logging that TLS is not implemented; no exporter is asked for and no
    shutdown function is registered. *)
Theorem tls_setting_decides_transport (w : World) (Hfirst : otelOnce w = false) :
  let v := setting "OTEL_SUPPORT_TLS" w in
  let o := otelHelper.SetupOtelHelper w in
  (environ w !! "OTEL_SUPPORT_TLS" = None ->
   (forall file, dotenv w = Some file -> file !! "OTEL_SUPPORT_TLS" = None) ->
   v = "") /\
  ((v = "" \/ v = "false") -> insecure_transport w o) /\
  (forall err, snd (strconv.ParseBool v) = Some err ->
     err = strconv.syntaxError "ParseBool" v /\
     insecure_transport w o /\
     tls_warning err ∈ logged (world_of o) /\
     same_but_for_line (tls_warning err) o
       (otelHelper.SetupOtelHelper (with_tls_false w))) /\
  (v = "true" ->
     o = Exit 1 (add_line tls_line (configured w)) /\
     calls (world_of o) = calls w ++ [CallSetTextMapPropagator the_propagator] /\
     last (logged (world_of o)) = Some tls_line /\
     shutdownFuncs (world_of o) = shutdownFuncs w).
Proof.
  intros v o. split; [| split; [| split]].
  - intros Henv Hfile. unfold v, setting, effective_environ.
    destruct (dotenv w) as [file|]; [| now rewrite Henv].
    rewrite lookup_union, Henv, (Hfile file eq_refl). reflexivity.
  - intros Hv.
    assert (Htls : supportTLS_of w = false).
    { rewrite (supportTLS_of_value w v eq_refl).
      destruct Hv as [-> | ->]; [now rewrite ParseBool_empty | now rewrite ParseBool_false]. }
    unfold o. rewrite (SetupOtelHelper_insecure w Hfirst Htls).
    apply insecure_outcome_transport.
  - intros err Herr.
    assert (Htls : supportTLS_of w = false).
    { rewrite (supportTLS_of_value w v eq_refl).
      destruct (strconv.ParseBool v) as [b [e|]]; [reflexivity | discriminate]. }
    assert (Htls2 : supportTLS_of (with_tls_false w) = false).
    { rewrite (supportTLS_of_value _ "false" (setting_tls_with_tls_false w)).
      now rewrite ParseBool_false. }
    unfold o. rewrite (SetupOtelHelper_insecure w Hfirst Htls).
    rewrite (SetupOtelHelper_insecure (with_tls_false w) Hfirst Htls2).
    destruct (unparsable_as_false w err Herr) as (Hr & Hc & Hs & Ht & Ho & pre & post & Hl & Hl2).
    split.
    { destruct (strconv.ParseBool v) as [b [e|]] eqn:Hp; [| discriminate].
      simpl in Herr. injection Herr as <-. now apply ParseBool_error in Hp. }
    split; [apply insecure_outcome_transport |].
    split.
    { rewrite Hl, !elem_of_app, list_elem_of_singleton. auto. }
    unfold same_but_for_line. repeat (split; [assumption |]).
    now exists pre, post.
  - intros Hv.
    assert (Htls : supportTLS_of w = true).
    { rewrite (supportTLS_of_value w v eq_refl), Hv. now rewrite ParseBool_true. }
    unfold o. rewrite (SetupOtelHelper_tls w Hfirst Htls).
    split; [reflexivity |]. unfold add_line, configured. simpl.
    repeat split. apply last_snoc.
Qed.

(** C2 (as the code has it).  When [otlptracegrpc.New] fails with [e],
    [initTraceProvider] returns to [initOtelHelper] the error [e] wrapped
    with the message "Failed to create OTLP exporter" (so the cause is
    that of [e]); it registers no shutdown function and does not end the
    process.  [initOtelHelper] then logs the wrapped error with
    [log.Fatalf], and the first [SetupOtelHelper] ends the process with
    exit code 1: no error reaches the caller of [SetupOtelHelper]. *)
Theorem exporter_failure_wrapped_then_fatal (w : World) (e : errors.error)
    (Hfirst : otelOnce w = false)
    (Htls : supportTLS_of w = false)
    (Hfail : otlptracegrpc_New (insecure_options (collectorURL_of w))
               (calls w ++ [CallSetTextMapPropagator the_propagator]) = Some e) :
  let wrapped := errors.withMessage e exporter_wrap_message in
  (exists w1,
      otelHelper.initTraceProvider (serviceName_of w) (collectorURL_of w) false
        (configured w) = Return (Some wrapped) w1 /\
      shutdownFuncs w1 = shutdownFuncs w) /\
  errors.Wrap (Some e) exporter_wrap_message = Some wrapped /\
  errors.Cause wrapped = errors.Cause e /\
  errors.Error wrapped = "Failed to create OTLP exporter: " +:+ errors.Error e /\
  exists w',
    otelHelper.SetupOtelHelper w = Exit 1 w' /\
    last (logged w') = Some (fatal_line wrapped) /\
    shutdownFuncs w' = shutdownFuncs w /\
    otelOnce w' = false.
Proof.
  intros wrapped.
  split.
  { rewrite initTraceProvider_insecure.
    change (calls (configured w)) with (calls w ++ [CallSetTextMapPropagator the_propagator]).
    cbv zeta. rewrite Hfail. eexists. split; reflexivity. }
  repeat (split; [reflexivity |]).
  rewrite (SetupOtelHelper_insecure w Hfirst Htls). unfold insecure_outcome.
  change (calls (add_line insecure_line (configured w)))
    with (calls w ++ [CallSetTextMapPropagator the_propagator]).
  cbv zeta. rewrite Hfail. eexists. split; [reflexivity |].
  unfold add_line. simpl. split; [apply last_snoc | split; [reflexivity | exact Hfirst]].
Qed.

End SetupClaims.

Lemma tls_setting_decides_transport_witness :
  process.insecure_transport samples.bare
    (otelHelper.SetupOtelHelper (ext := samples.healthy) samples.bare).
Proof.
  destruct (tls_setting_decides_transport (ext := samples.healthy) samples.bare eq_refl)
    as (_ & Hunset & _ & _).
  apply Hunset. left. vm_compute. reflexivity.
Defined.

Lemma exporter_failure_wrapped_then_fatal_witness :
  exists w',
    otelHelper.SetupOtelHelper (ext := samples.no_exporter) samples.bare = Exit 1 w' /\
    last (logged w') =
      Some (process.fatal_line
              (errors.withMessage (errors.fundamental "context deadline exceeded")
                 process.exporter_wrap_message)) /\
    shutdownFuncs w' = [] /\
    otelOnce w' = false.
Proof.
  apply (exporter_failure_wrapped_then_fatal (ext := samples.no_exporter) samples.bare
           (errors.fundamental "context deadline exceeded")).
  - reflexivity.
  - vm_compute. reflexivity.
  - reflexivity.
Defined.

(** C2, as the claim states it, fails: with an exporter that cannot be
    built, [SetupOtelHelper] does not return to its caller; the process
    ends with exit code 1. *)
Lemma setup_ends_process_when_exporter_fails :
  returns (otelHelper.SetupOtelHelper (ext := samples.no_exporter) samples.bare) = false /\
  exists w',
    otelHelper.SetupOtelHelper (ext := samples.no_exporter) samples.bare = Exit 1 w'.
Proof.
  split; [vm_compute; reflexivity |].
  eexists. vm_compute. reflexivity.
Qed.

(** ** Sequences of calls *)

Section CallSequences.
Context `{ext : Externals}.
Import process.

Lemma count_app (p : Call -> bool) (l1 l2 : list Call) :
  count p (l1 ++ l2) = (count p l1 + count p l2)%nat.
Proof. unfold count. now rewrite filter_app, length_app. Qed.

Lemma Shutdown_empty (w : World) :
  shutdownFuncs w = [] -> otelHelper.Shutdown w = Return tt w.
Proof.
  intros H. unfold otelHelper.Shutdown. run_monad. now rewrite H.
Qed.

Lemma Shutdown_single (w : World) (f : ShutdownFunc) :
  shutdownFuncs w = [f] ->
  exists w',
    otelHelper.Shutdown w = Return tt w' /\
    calls w' = calls w ++ footprint f /\
    shutdownFuncs w' = [f] /\
    otelOnce w' = otelOnce w.
Proof.
  intros H. unfold otelHelper.Shutdown. run_monad.
  destruct (range_shutdownFuncs_drains (shutdownFuncs w) w)
    as (w' & Hr & _ & Hc & Hs & Ho & _).
  exists w'. rewrite H in *. simpl in Hc. auto.
Qed.

(** Once setup has completed, every call returns; a [SetupOtelHelper]
    changes nothing and each [Shutdown] calls the registered function. *)
Lemma run_after_setup (cs : list ApiCall) :
  forall (w : World) (f : ShutdownFunc),
    otelOnce w = true -> shutdownFuncs w = [f] ->
    exists w',
      run cs w = Return tt w' /\
      count is_init (calls w') = count is_init (calls w) /\
      count is_New (calls w') = count is_New (calls w) /\
      count is_provider_shutdown (calls w') =
        (count is_provider_shutdown (calls w)
         + length (filter (fun c => is_DoShutdown c = true) cs))%nat.
Proof.
  induction cs as [|c rest IH]; intros w f Ho Hs.
  - exists w. simpl. unfold ret. repeat split. lia.
  - destruct c; simpl run.
    + rewrite (bind_Return _ _ _ _ _ (SetupOtelHelper_again w Ho)).
      destruct (IH w f Ho Hs) as (w' & Hr & Hi & Hn & Hp).
      exists w'. repeat split; assumption.
    + destruct (Shutdown_single w f Hs) as (w1 & Hr1 & Hc1 & Hs1 & Ho1).
      simpl step. rewrite (bind_Return _ _ _ _ _ Hr1).
      rewrite Ho in Ho1.
      destruct (IH w1 f Ho1 Hs1) as (w' & Hr & Hi & Hn & Hp).
      exists w'. rewrite Hc1, !count_app in *.
      repeat split; try assumption; simpl in *; unfold count in *; simpl in *; lia.
Qed.

(** From a process that has not set up yet. *)
Lemma run_before_setup (cs : list ApiCall) :
  forall w : World,
    otelOnce w = false -> shutdownFuncs w = [] ->
    let o := run cs w in
    (count is_init (calls (world_of o)) <= count is_init (calls w) + 1)%nat /\
    (count is_New (calls (world_of o)) <= count is_New (calls w) + 1)%nat /\
    count is_provider_shutdown (calls (world_of o)) =
      (count is_provider_shutdown (calls w)
       + if returns o then shutdowns_after_setup cs else 0)%nat.
Proof.
  induction cs as [|c rest IH]; intros w Ho Hs.
  - simpl. lia.
  - destruct c; simpl run; simpl step.
    + destruct (supportTLS_cases w) as [Htls | Htls].
      * rewrite (bind_Exit _ _ _ _ _ (SetupOtelHelper_tls w Ho Htls)).
        cbv zeta. unfold add_line, configured. simpl.
        rewrite !count_app. unfold count. simpl. lia.
      * pose proof (SetupOtelHelper_insecure w Ho Htls) as Hsetup.
        unfold insecure_outcome in Hsetup. cbv zeta in Hsetup.
        destruct (otlptracegrpc_New _ _) as [e|].
        -- rewrite (bind_Exit _ _ _ _ _ Hsetup).
           cbv zeta. unfold add_line, configured. simpl.
           rewrite !count_app. unfold count. simpl. lia.
        -- rewrite (bind_Return _ _ _ _ _ Hsetup).
           match goal with |- context [run rest ?w1] =>
             destruct (run_after_setup rest w1
                         (closure_for (serviceName_of w) (collectorURL_of w)))
               as (w' & Hr & Hi & Hn & Hp)
           end; [reflexivity | simpl; now rewrite Hs |].
           cbv zeta. rewrite Hr. simpl.
           rewrite Hi, Hn, Hp. unfold add_line, configured. simpl.
           rewrite !count_app. unfold count. simpl. lia.
    + rewrite (bind_Return _ _ _ _ _ (Shutdown_empty w Hs)).
      exact (IH w Ho Hs).
Qed.

(** C6 (as the code has it).  In every sequence of [SetupOtelHelper] and
    [Shutdown] calls of a process, the body of setup runs at most once (at
    most one propagator is set and at most one exporter is asked for), and
    a [SetupOtelHelper] after a completed setup changes nothing.
    [Shutdown] has no such guard: the registered function is called once
    for every [Shutdown] that comes after the setup, and never by a
    [Shutdown] before it; when setup ends the process, it is never
    called. *)
Theorem setup_once_shutdown_every_time (cs : list ApiCall) (w : World)
    (Hfirst : otelOnce w = false)
    (Hreg : shutdownFuncs w = [])
    (Hcalls : calls w = []) :
  let o := run cs w in
  (count is_init (calls (world_of o)) <= 1)%nat /\
  (count is_New (calls (world_of o)) <= 1)%nat /\
  count is_provider_shutdown (calls (world_of o)) =
    (if returns o then shutdowns_after_setup cs else 0%nat) /\
  (forall w1, otelOnce w1 = true -> otelHelper.SetupOtelHelper w1 = Return tt w1).
Proof.
  intros o.
  destruct (run_before_setup cs w Hfirst Hreg) as (Hi & Hn & Hp).
  fold o in Hi, Hn, Hp. rewrite Hcalls in Hi, Hn, Hp.
  unfold count in Hi, Hn, Hp at 2. simpl in Hi, Hn, Hp.
  repeat split; try assumption.
  apply SetupOtelHelper_again.
Qed.

End CallSequences.

Lemma setup_once_shutdown_every_time_witness :
  let o := process.run (ext := samples.healthy)
             [process.DoShutdown; process.DoSetupOtelHelper;
              process.DoSetupOtelHelper; process.DoShutdown] samples.bare in
  (process.count process.is_init (calls (world_of o)) <= 1)%nat /\
  (process.count process.is_New (calls (world_of o)) <= 1)%nat /\
  process.count process.is_provider_shutdown (calls (world_of o)) =
    (if returns o
     then process.shutdowns_after_setup
            [process.DoShutdown; process.DoSetupOtelHelper;
             process.DoSetupOtelHelper; process.DoShutdown]
     else 0%nat) /\
  (forall w1, otelOnce w1 = true ->
     otelHelper.SetupOtelHelper (ext := samples.healthy) w1 = Return tt w1).
Proof.
  apply (setup_once_shutdown_every_time (ext := samples.healthy)
           [process.DoShutdown; process.DoSetupOtelHelper;
            process.DoSetupOtelHelper; process.DoShutdown] samples.bare);
    reflexivity.
Defined.

(** C6, as the claim states it, fails: after one setup, two calls of
    [Shutdown] call the registered function twice. *)
Lemma shutdown_twice_drains_twice :
  let o := process.run (ext := samples.healthy)
             [process.DoSetupOtelHelper; process.DoShutdown; process.DoShutdown]
             samples.bare in
  returns o = true /\
  process.count process.is_provider_shutdown (calls (world_of o)) = 2%nat.
Proof. vm_compute. split; reflexivity. Qed.

(** ** The hooks *)

Section HookLevels.
Import hooks process.

Lemma built_logger_hooks (l : logrus.Level) :
  Hooks built_logger l =
    match l with
    | logrus.PanicLevel | logrus.FatalLevel =>
        [LogrusContextHook; LogrusOtelHook; LogrusOtelShutdownHook]
    | logrus.ErrorLevel | logrus.WarnLevel => [LogrusContextHook; LogrusOtelHook]
    | logrus.DebugLevel => [LogrusContextHook]
    | logrus.InfoLevel | logrus.TraceLevel => []
    end.
Proof. destruct l; reflexivity. Qed.

Lemma initLogHelper_builds (w : World) :
  loggingHelper.initLogHelper w = Return tt (set_logHelper (Some built_logger) w).
Proof. reflexivity. Qed.

Lemma context_hook_level_cases (l : logrus.Level) :
  l ∈ loggingHelper.LogrusContextHook_Levels <->
  l = logrus.DebugLevel \/ warn_or_above l.
Proof.
  unfold loggingHelper.LogrusContextHook_Levels, warn_or_above, logrus.at_least.
  rewrite !elem_of_cons, elem_of_nil.
  destruct l; simpl; split; intros H; try lia; try tauto;
    repeat (destruct H as [H|H]; try discriminate H; try lia).
Qed.

Lemma otel_hook_level_cases (l : logrus.Level) :
  l ∈ loggingHelper.LogrusOtelHook_Levels <-> warn_or_above l.
Proof.
  unfold loggingHelper.LogrusOtelHook_Levels, warn_or_above, logrus.at_least.
  rewrite !elem_of_cons, elem_of_nil.
  destruct l; simpl; split; intros H; try lia; try tauto;
    repeat (destruct H as [H|H]; try discriminate H; try lia).
Qed.

End HookLevels.

Section HookClaims.
Context `{ext : Externals}.
Import hooks process.

(** C9.  The call-site hook is activated for the debug level and for the
    levels warn and above, and for no other: not for info (nor trace).
    The logger that [initLogHelper] builds has the hook among those of a
    level exactly when the level is one of these, and it has no hook at
    all for the info level: firing the hooks of an info entry returns the
    entry as it is and leaves the world as it is, so [runtime.Caller] is
    not called, whatever the context and the message. *)
Theorem context_hook_not_for_info (l : logrus.Level) (entry : Entry) (w : World) :
  (l ∈ loggingHelper.LogrusContextHook_Levels <->
     l = logrus.DebugLevel \/ warn_or_above l) /\
  (logrus.InfoLevel ∉ loggingHelper.LogrusContextHook_Levels) /\
  loggingHelper.initLogHelper w = Return tt (set_logHelper (Some built_logger) w) /\
  (LogrusContextHook ∈ Hooks built_logger l <->
     l ∈ loggingHelper.LogrusContextHook_Levels) /\
  Hooks built_logger logrus.InfoLevel = [] /\
  loggingHelper.LevelHooks_Fire (Hooks built_logger) logrus.InfoLevel entry w =
    Return (entry, None) w.
Proof.
  split; [apply context_hook_level_cases |].
  split.
  { rewrite context_hook_level_cases. unfold warn_or_above, logrus.at_least.
    simpl. intros [H | H]; [discriminate | lia]. }
  split; [reflexivity |].
  split.
  { rewrite built_logger_hooks.
    unfold loggingHelper.LogrusContextHook_Levels.
    destruct l; rewrite !elem_of_cons, !elem_of_nil; split; intros H;
      try tauto;
      repeat (destruct H as [H|H]; try discriminate H; try tauto). }
  split; reflexivity.
Qed.

Lemma set_spans_same (w : World) : set_spans (spans w) w = w.
Proof. now destruct w. Qed.

(** [addEvent] when the context carries a recording span of the SDK. *)
Lemma addEvent_active (ctx : option otel.Context) (args : list otel.KeyValue)
    (w : World) (id : nat) :
  active_span (spans w) ctx = Some id ->
  exists d,
    spans w !! id = Some d /\
    loggingHelper.addEvent ctx args w =
      Return tt
        (set_spans
           (<[id := otel.mkSpanData true (otel.events d ++ [otel.mkEvent "log" args])]>
              (spans w)) w).
Proof.
  unfold active_span, loggingHelper.addEvent, otel.SpanFromContext.
  intros Hactive.
  destruct ctx as [[[[id'|]|]]|]; simpl in Hactive; try discriminate Hactive.
  revert Hactive.
  destruct (spans w !! id') as [d|] eqn:Hd; [| discriminate].
  destruct (otel.recording d) eqn:Hrec; [| discriminate].
  intros [= ->]. exists d. split; [assumption |].
  run_monad. unfold otel.AddEvent. now rewrite Hd, Hrec.
Qed.

(** [addEvent] when it does not: nothing changes. *)
Lemma addEvent_inactive (ctx : option otel.Context) (args : list otel.KeyValue)
    (w : World) :
  active_span (spans w) ctx = None ->
  loggingHelper.addEvent ctx args w = Return tt w.
Proof.
  unfold active_span, loggingHelper.addEvent, otel.SpanFromContext.
  intros Hnone.
  destruct ctx as [[[[id'|]|]]|]; simpl in Hnone; run_monad; unfold otel.AddEvent;
    rewrite ?set_spans_same; try reflexivity.
  revert Hnone.
  destruct (spans w !! id') as [d|]; [| now rewrite set_spans_same].
  destruct (otel.recording d); [discriminate | now rewrite set_spans_same].
Qed.

End HookClaims.

Section BridgeClaims.
Context `{ext : Externals}.
Import hooks process.

Lemma events_of_insert (sp : gmap nat otel.SpanData) (id : nat) (d : otel.SpanData) :
  events_of (<[id := d]> sp) id = otel.events d.
Proof. unfold events_of. now rewrite lookup_insert_eq. Qed.

(** What [LogrusOtelHook.Fire] does under an active span, whichever the
    key of the first attribute. *)
Lemma bridge_appends (msgKey : string) (entry : Entry) (w : World) (id : nat) :
  active_span (spans w) (Context entry) = Some id ->
  exists w',
    (loggingHelper.addEvent (Context entry)
       (otel.Attributes (log_event msgKey entry)) ;;; ret (entry, @None errors.error)) w
      = Return (entry, None) w' /\
    events_of (spans w') id = events_of (spans w) id ++ [log_event msgKey entry] /\
    (forall j, j <> id -> spans w' !! j = spans w !! j) /\
    w' = set_spans (spans w') w.
Proof.
  intros Hspan.
  destruct (addEvent_active (Context entry) (otel.Attributes (log_event msgKey entry))
              w id Hspan) as (d & Hd & Hadd).
  rewrite (bind_Return _ _ _ _ _ Hadd). unfold ret.
  eexists. split; [reflexivity |]. simpl.
  split; [| split].
  - rewrite events_of_insert. unfold events_of. now rewrite Hd.
  - intros j Hj. now rewrite lookup_insert_ne.
  - reflexivity.
Qed.

(** C1.  [LogrusOtelHook] is activated for the levels warn and above, and
    the logger of [initLogHelper] fires it for an entry of such a level.
    When the context of the entry carries a recording span, [Fire] returns
    nil and the span has exactly one more event; no other span changes and
    nothing else in the process does.  The event is named "log" and has
    five attributes, with the keys msg, level, file, line and time: the
    message, the name of the level, the file and the line found in the
    fields of the entry (the placeholder "unknown" for a field that is
    missing or of another type), and the time of the entry in the layout
    RFC3339.  With the file and the line that the call-site hook stores,
    the values are the file and the line in decimal.  The first revision
    of the hook (package main) builds the same five values; there the key
    of the message is level. *)
Theorem otel_hook_appends_one_log_event (entry : Entry) (w : World) (id : nat)
    (Hlevel : warn_or_above (Level entry))
    (Hspan : active_span (spans w) (Context entry) = Some id) :
  Level entry ∈ loggingHelper.LogrusOtelHook_Levels /\
  LogrusOtelHook ∈ Hooks built_logger (Level entry) /\
  (exists w',
     loggingHelper.LogrusOtelHook_Fire entry w = Return (entry, None) w' /\
     events_of (spans w') id = events_of (spans w) id ++ [log_event "msg" entry] /\
     (forall j, j <> id -> spans w' !! j = spans w !! j) /\
     w' = set_spans (spans w') w) /\
  otel.Name (log_event "msg" entry) = "log" /\
  map otel.Key (otel.Attributes (log_event "msg" entry)) =
    ["msg"; "level"; "file"; "line"; "time"] /\
  (exists file line : string,
     map otel.Value (otel.Attributes (log_event "msg" entry)) =
       [Message entry; logrus.String (Level entry); file; line;
        Time_Format (Time entry) time.RFC3339]) /\
  (forall (file : string) (line : Z),
     Data entry !! "file" = Some (VString file) ->
     Data entry !! "line" = Some (VInt line) ->
     map otel.Value (otel.Attributes (log_event "msg" entry)) =
       [Message entry; logrus.String (Level entry); file;
        loggingHelper.Sprintf_d line; Time_Format (Time entry) time.RFC3339]) /\
  (exists w',
     loggingHelper.LogrusOtelHook_Fire_main entry w = Return (entry, None) w' /\
     events_of (spans w') id = events_of (spans w) id ++ [log_event "level" entry] /\
     map otel.Value (otel.Attributes (log_event "level" entry)) =
       map otel.Value (otel.Attributes (log_event "msg" entry))).
Proof.
  split; [now apply otel_hook_level_cases |].
  split.
  { rewrite built_logger_hooks. unfold warn_or_above, logrus.at_least in Hlevel.
    destruct (Level entry); simpl in Hlevel; try lia;
      rewrite !elem_of_cons; auto. }
  split; [exact (bridge_appends "msg" entry w id Hspan) |].
  split; [reflexivity |].
  split.
  { unfold log_event, loggingHelper.getAttributeValue. simpl.
    destruct (Data entry !! "file") as [[| |]|], (Data entry !! "line") as [[| |]|];
      reflexivity. }
  split.
  { unfold log_event. simpl. eexists _, _. reflexivity. }
  split.
  { intros file line Hf Hl. unfold log_event, loggingHelper.getAttributeValue. simpl.
    now rewrite Hf, Hl. }
  destruct (bridge_appends "level" entry w id Hspan) as (w' & Hfire & Hev & _).
  exists w'. repeat split; assumption.
Qed.

(** C3.  For an entry of level warn or above whose context carries no
    recording span (the context is nil, it holds no span, it holds the
    no-op span, or its span is unknown to the SDK or has stopped
    recording), [addEvent] changes nothing and [LogrusOtelHook.Fire]
    returns nil: the entry and the whole process, and so the events of
    every span, are as before. *)
Theorem otel_hook_without_span (entry : Entry) (w : World)
    (Hlevel : warn_or_above (Level entry))
    (Hnone : active_span (spans w) (Context entry) = None) :
  (forall args, loggingHelper.addEvent (Context entry) args w = Return tt w) /\
  loggingHelper.LogrusOtelHook_Fire entry w = Return (entry, None) w /\
  (forall id,
     events_of (spans (world_of (loggingHelper.LogrusOtelHook_Fire entry w))) id
       = events_of (spans w) id).
Proof.
  assert (Hfire : loggingHelper.LogrusOtelHook_Fire entry w = Return (entry, None) w).
  { unfold loggingHelper.LogrusOtelHook_Fire.
    now rewrite (bind_Return _ _ _ _ _ (addEvent_inactive _ _ w Hnone)). }
  split; [intros args; now apply addEvent_inactive |].
  split; [exact Hfire |].
  intros id. now rewrite Hfire.
Qed.

End BridgeClaims.

Lemma otel_hook_appends_one_log_event_witness :
  exists w',
    loggingHelper.LogrusOtelHook_Fire (ext := samples.healthy)
      (samples.warning samples.in_span_7) samples.one_span
      = Return (samples.warning samples.in_span_7, None) w' /\
    process.events_of (spans w') 7 =
      process.events_of (spans samples.one_span) 7 ++
      [process.log_event (ext := samples.healthy) "msg" (samples.warning samples.in_span_7)] /\
    (forall j, j <> 7%nat -> spans w' !! j = spans samples.one_span !! j) /\
    w' = set_spans (spans w') samples.one_span.
Proof.
  apply (otel_hook_appends_one_log_event (ext := samples.healthy)
           (samples.warning samples.in_span_7) samples.one_span 7%nat).
  - unfold process.warn_or_above, logrus.at_least. simpl. lia.
  - vm_compute. reflexivity.
Defined.

Lemma otel_hook_without_span_witness :
  loggingHelper.LogrusOtelHook_Fire (ext := samples.healthy)
    (samples.warning None) samples.one_span
    = Return (samples.warning None, None) samples.one_span.
Proof.
  apply (otel_hook_without_span (ext := samples.healthy)
           (samples.warning None) samples.one_span).
  - unfold process.warn_or_above, logrus.at_least. simpl. lia.
  - reflexivity.
Defined.


(** ** An entry through all the hooks of its level *)

Section Dispatch.
Context `{ext : Externals}.
Import hooks process.

Lemma ContextHook_Fire_found (entry : Entry) (w : World) (file : string) (line : Z) :
  runtime_Caller 7 w = Some (file, line) ->
  loggingHelper.LogrusContextHook_Fire entry w =
    Return (annotated entry file line, None) (set_calls (calls w ++ [CallCaller 7]) w).
Proof.
  intros Hc. unfold loggingHelper.LogrusContextHook_Fire. run_monad.
  now rewrite Hc.
Qed.

Lemma annotated_values (entry : Entry) (file : string) (line : Z) :
  otel.Attributes (log_event "msg" (annotated entry file line)) =
    [otel.String "msg" (Message entry);
     otel.String "level" (logrus.String (Level entry));
     otel.String "file" file;
     otel.String "line" (loggingHelper.Sprintf_d line);
     otel.String "time" (Time_Format (Time entry) time.RFC3339)].
Proof.
  unfold log_event, loggingHelper.getAttributeValue, annotated. simpl.
  rewrite lookup_insert_ne by discriminate.
  now rewrite !lookup_insert_eq.
Qed.

Lemma ShutdownHook_Fire_drains (entry : Entry) (w : World) :
  exists w',
    loggingHelper.LogrusOtelShutdownHook_Fire entry w = Return (entry, None) w' /\
    calls w' = calls w ++ concat (map footprint (shutdownFuncs w)) /\
    spans w' = spans w.
Proof.
  destruct (range_shutdownFuncs_drains (shutdownFuncs w) w)
    as (w' & Hr & _ & Hc & _ & _ & Hsp).
  exists w'. unfold loggingHelper.LogrusOtelShutdownHook_Fire, otelHelper.Shutdown.
  run_monad. now rewrite Hr.
Qed.

(** An entry of level warn or above, logged under a recording span from a
    call site that [runtime.Caller] finds, goes through the hooks of the
    logger in the order call-site hook, trace bridge and (fatal and panic
    only) shutdown hook: the span gets exactly one event, whose file and
    line are those of the call site. *)
Lemma warn_entry_event_has_call_site (entry : Entry) (w : World) (id : nat)
    (file : string) (line : Z) :
  warn_or_above (Level entry) ->
  active_span (spans w) (Context entry) = Some id ->
  runtime_Caller 7 w = Some (file, line) ->
  exists w',
    loggingHelper.LevelHooks_Fire (Hooks built_logger) (Level entry) entry w =
      Return (annotated entry file line, None) w' /\
    events_of (spans w') id =
      events_of (spans w) id ++
      [otel.mkEvent "log"
         [otel.String "msg" (Message entry);
          otel.String "level" (logrus.String (Level entry));
          otel.String "file" file;
          otel.String "line" (loggingHelper.Sprintf_d line);
          otel.String "time" (Time_Format (Time entry) time.RFC3339)]] /\
    (forall j, j <> id -> spans w' !! j = spans w !! j).
Proof.
  intros Hlevel Hspan Hcaller.
  pose proof (ContextHook_Fire_found entry w file line Hcaller) as Hctx.
  set (w1 := set_calls (calls w ++ [CallCaller 7]) w) in *.
  assert (Hspan1 : active_span (spans w1) (Context (annotated entry file line)) = Some id)
    by exact Hspan.
  destruct (bridge_appends "msg" (annotated entry file line) w1 id Hspan1)
    as (w2 & Hfire & Hev & Hother & _).
  change (loggingHelper.LogrusOtelHook_Fire (annotated entry file line) w1
            = Return (annotated entry file line, None) w2) in Hfire.
  unfold log_event in Hev. fold (log_event "msg" (annotated entry file line)) in Hev.
  assert (Hev' : events_of (spans w2) id =
                 events_of (spans w) id ++
                 [otel.mkEvent "log" (otel.Attributes (log_event "msg" (annotated entry file line)))])
    by exact Hev.
  rewrite annotated_values in Hev'.
  unfold loggingHelper.LevelHooks_Fire. rewrite built_logger_hooks.
  unfold warn_or_above, logrus.at_least in Hlevel.
  destruct (Level entry) eqn:Hl; simpl in Hlevel; try lia;
    simpl loggingHelper.fire_each;
    rewrite (bind_Return _ _ _ _ _ Hctx);
    rewrite (bind_Return _ _ _ _ _ Hfire).
  1,2: destruct (ShutdownHook_Fire_drains (annotated entry file line) w2)
         as (w3 & Hsd & _ & Hsp3);
       rewrite (bind_Return _ _ _ _ _ Hsd); exists w3; unfold ret;
       rewrite Hsp3; repeat split; assumption.
  all: exists w2; unfold ret; repeat split; assumption.
Qed.


End Dispatch.

Lemma warn_entry_event_has_call_site_example :
  exists w',
    loggingHelper.LevelHooks_Fire (ext := samples.healthy)
      (hooks.Hooks process.built_logger) logrus.WarnLevel
      (hooks.mkEntry ∅ samples.noon logrus.WarnLevel "disk almost full" samples.in_span_7)
      samples.one_span
      = Return (samples.warning samples.in_span_7, None) w' /\
    process.events_of (spans w') 7 =
      [otel.mkEvent "log"
         [otel.String "msg" "disk almost full";
          otel.String "level" "warning";
          otel.String "file" "/app/main.go";
          otel.String "line" "37";
          otel.String "time" "2024-05-01T12:00:00Z"]].
Proof.
  destruct (warn_entry_event_has_call_site (ext := samples.healthy)
              (hooks.mkEntry ∅ samples.noon logrus.WarnLevel "disk almost full"
                 samples.in_span_7)
              samples.one_span 7%nat "/app/main.go" 37)
    as (w' & Hfire & Hev & _).
  - unfold process.warn_or_above, logrus.at_least. simpl. lia.
  - vm_compute. reflexivity.
  - reflexivity.
  - exists w'. split; [exact Hfire | exact Hev].
Defined.


(** ** What a completed setup leaves behind *)

Section SetupEffects.
Context `{ext : Externals}.
Import process.

(** A first [SetupOtelHelper] that returns has set the propagator and the
    tracer provider, with the service name of the environment or
    "TestService" when there is none, has appended exactly one function to
    the registry, and has marked setup as done. *)
Lemma setup_registers_one_function (w : World) :
  otelOnce w = false ->
  returns (otelHelper.SetupOtelHelper w) = true ->
  let w' := world_of (otelHelper.SetupOtelHelper w) in
  shutdownFuncs w' =
    shutdownFuncs w ++ [closure_for (serviceName_of w) (collectorURL_of w)] /\
  tracerProvider w' = Some (provider_for (serviceName_of w) (collectorURL_of w)) /\
  textMapPropagator w' = Some the_propagator /\
  otelOnce w' = true /\
  (setting "OTEL_SERVICE_NAME" w = "" -> serviceName_of w = "TestService").
Proof.
  intros Hfirst Hret.
  destruct (supportTLS_cases w) as [Htls | Htls].
  - rewrite (SetupOtelHelper_tls w Hfirst Htls) in Hret. discriminate Hret.
  - rewrite (SetupOtelHelper_insecure w Hfirst Htls) in *.
    unfold insecure_outcome in *. cbv zeta in *.
    destruct (otlptracegrpc_New _ _); [discriminate Hret |].
    simpl. repeat split.
    intros Hname. unfold serviceName_of. now rewrite Hname.
Qed.

End SetupEffects.

Lemma setup_registers_one_function_example :
  shutdownFuncs (world_of (otelHelper.SetupOtelHelper (ext := samples.healthy) samples.bare))
    = [process.closure_for "TestService" ""].
Proof.
  destruct (setup_registers_one_function (ext := samples.healthy) samples.bare)
    as (Hreg & _).
  - reflexivity.
  - vm_compute. reflexivity.
  - exact Hreg.
Defined.

(** ** Concrete runs *)

Example both_shutdowns_fail :
  exists w',
    otelHelper.call_shutdown (ext := samples.failing_shutdown) samples.closure_a
      samples.bare
      = Return
          (Some (errors.withMessage
                   (errors.withMessage (errors.fundamental "provider timeout")
                      "Failed to shut down the tracer provider.")
                   "Failed to shut down the SigNoz exporter.: connection refused"))
          w' /\
    calls w' = process.footprint samples.closure_a.
Proof. eexists. split; vm_compute; reflexivity. Qed.

Example both_shutdowns_fail_text :
  errors.Error
    (errors.withMessage
       (errors.withMessage (errors.fundamental "provider timeout")
          "Failed to shut down the tracer provider.")
       "Failed to shut down the SigNoz exporter.: connection refused")
  = "Failed to shut down the SigNoz exporter.: connection refused: Failed to shut down the tracer provider.: provider timeout".
Proof. reflexivity. Qed.

Example drain_goes_on_after_a_failure :
  let w := set_shutdownFuncs [samples.closure_a; samples.closure_b] samples.bare in
  let o := otelHelper.Shutdown (ext := samples.failing_shutdown) w in
  returns o = true /\
  calls (world_of o) =
    process.footprint samples.closure_a ++ process.footprint samples.closure_b /\
  map log.format (logged (world_of o)) =
    ["Failed to shut down the service. %v"; "Failed to shut down the service. %v"].
Proof. vm_compute. repeat split. Qed.

Example tls_true_ends_the_process :
  otelHelper.SetupOtelHelper (ext := samples.healthy) samples.wants_tls
  = Exit 1 (process.add_line process.tls_line (process.configured samples.wants_tls)).
Proof. vm_compute. reflexivity. Qed.

Example unset_tls_logs_the_warning :
  process.tls_warning (strconv.syntaxError "ParseBool" "")
    ∈ logged (world_of (otelHelper.SetupOtelHelper (ext := samples.healthy) samples.bare)).
Proof. vm_compute. repeat constructor. Qed.

Example sprintf_d_examples :
  loggingHelper.Sprintf_d 37 = "37" /\
  loggingHelper.Sprintf_d 0 = "0" /\
  loggingHelper.Sprintf_d (-5) = "-5".
Proof. repeat split. Qed.

Example first_revision_keys :
  map otel.Key
    (otel.Attributes
       (process.log_event (ext := samples.healthy) "level"
          (samples.warning samples.in_span_7)))
  = ["level"; "level"; "file"; "line"; "time"].
Proof. reflexivity. Qed.

(* ================================================================== *)
(** * Further properties *)
(* ================================================================== *)

(** ** The monad, continued *)

Lemma bind_Return_inv {A B} (m : M A) (k : A -> M B) w b w' :
  bind m k w = Return b w' ->
  exists a w1, m w = Return a w1 /\ k a w1 = Return b w'.
Proof.
  unfold bind. destruct (m w) as [a w1| |]; try discriminate.
  intros H. now exists a, w1.
Qed.

Lemma bind_assoc {A B C} (m : M A) (k1 : A -> M B) (k2 : B -> M C) w :
  bind (bind m k1) k2 w = bind m (fun a => bind (k1 a) k2) w.
Proof. unfold bind. now destruct (m w). Qed.

Lemma bind_modify {B} (f : World -> World) (k : unit -> M B) w :
  bind (modify f) k w = k tt (f w).
Proof. reflexivity. Qed.

Lemma bind_ret {A B} (a : A) (k : A -> M B) w : bind (ret a) k w = k a w.
Proof. reflexivity. Qed.

(** ** What [Shutdown] changes and what it leaves *)

Section ShutdownFrame.
Context `{ext : Externals}.
Import process notions.

(** The loop changes the calls and the log, and nothing else. *)
Lemma range_shutdownFuncs_frame (fs : list ShutdownFunc) :
  forall w, exists lines : list log.Line,
    otelHelper.range_shutdownFuncs fs w =
      Return tt
        (set_logged (logged w ++ lines)
           (set_calls (calls w ++ concat (map footprint fs)) w)) /\
    Forall is_failure_line lines /\
    (length lines <= length fs)%nat.
Proof.
  induction fs as [|f rest IH]; intros w.
  - exists []. simpl. rewrite !app_nil_r. unfold ret.
    repeat split; [now destruct w | constructor | lia].
  - pose proof (call_shutdown_result f w) as Hf.
    simpl otelHelper.range_shutdownFuncs.
    rewrite (bind_Return _ _ _ _ _ Hf). clear Hf.
    match goal with
    | |- context [match ?r with Some e => _ | None => _ end] =>
        destruct r as [e|]
    end; run_monad.
    + match goal with |- context [otelHelper.range_shutdownFuncs rest ?w2] =>
        destruct (IH w2) as (lines & Hr & Hall & Hlen) end.
      exists (failure_line e :: lines). rewrite Hr. simpl.
      repeat split; [| constructor; [reflexivity | assumption] | simpl; lia].
      unfold set_logged, set_calls. simpl.
      now rewrite <- !app_assoc.
    + match goal with |- context [otelHelper.range_shutdownFuncs rest ?w2] =>
        destruct (IH w2) as (lines & Hr & Hall & Hlen) end.
      exists lines. rewrite Hr. simpl.
      repeat split; [| assumption | lia].
      unfold set_logged, set_calls. simpl.
      now rewrite <- !app_assoc.
Qed.

(** [Shutdown] never ends the process and never touches the registry: it
    returns, having added to the calls those of every registered function
    and to the log at most one line per function, each a failure line;
    the registry, the once flag, the environment, the OpenTelemetry
    globals, the spans and the logger are as before.  So a second
    [Shutdown] finds the same registry. *)
Theorem Shutdown_frame (w : World) :
  exists lines : list log.Line,
    otelHelper.Shutdown w =
      Return tt
        (set_logged (logged w ++ lines)
           (set_calls (calls w ++ concat (map footprint (shutdownFuncs w))) w)) /\
    Forall is_failure_line lines /\
    (length lines <= length (shutdownFuncs w))%nat /\
    shutdownFuncs (world_of (otelHelper.Shutdown w)) = shutdownFuncs w.
Proof.
  destruct (range_shutdownFuncs_frame (shutdownFuncs w) w) as (lines & Hr & Hall & Hlen).
  exists lines.
  assert (H : otelHelper.Shutdown w =
              Return tt
                (set_logged (logged w ++ lines)
                   (set_calls (calls w ++ concat (map footprint (shutdownFuncs w))) w))).
  { unfold otelHelper.Shutdown. run_monad. exact Hr. }
  repeat split; try assumption. now rewrite H.
Qed.

(** When no shutdown of a provider or of an exporter fails, [Shutdown]
    logs nothing: the world after it differs from the world before in the
    calls only. *)
Theorem Shutdown_quiet (w : World)
    (Hprov : forall tp h, TracerProvider_Shutdown tp h = None)
    (Hexp : forall e h, Exporter_Shutdown e h = None) :
  otelHelper.Shutdown w =
    Return tt (set_calls (calls w ++ concat (map footprint (shutdownFuncs w))) w).
Proof.
  unfold otelHelper.Shutdown. run_monad.
  generalize (shutdownFuncs w) as fs. intros fs. revert w.
  induction fs as [|f rest IH]; intros w.
  - simpl. unfold ret. rewrite app_nil_r. now destruct w.
  - pose proof (call_shutdown_result f w) as Hf.
    rewrite Hprov, Hexp in Hf.
    simpl otelHelper.range_shutdownFuncs.
    rewrite (bind_Return _ _ _ _ _ Hf). run_monad.
    rewrite IH. unfold set_calls. simpl. now rewrite <- !app_assoc.
Qed.

(** The drain of a registry made of two parts is the drain of the first
    part followed by the drain of the second. *)
Theorem range_shutdownFuncs_app (fs1 fs2 : list ShutdownFunc) (w : World) :
  otelHelper.range_shutdownFuncs (fs1 ++ fs2) w =
    (otelHelper.range_shutdownFuncs fs1 ;;; otelHelper.range_shutdownFuncs fs2) w.
Proof.
  revert w. induction fs1 as [|f rest IH]; intros w.
  - reflexivity.
  - pose proof (call_shutdown_result f w) as Hf.
    simpl app. simpl otelHelper.range_shutdownFuncs.
    rewrite bind_assoc, !(bind_Return _ _ _ _ _ Hf). clear Hf.
    rewrite bind_assoc.
    match goal with
    | |- context [match ?r with Some e => _ | None => _ end] =>
        destruct r as [e|]
    end.
    + unfold log_Printf. rewrite !bind_modify. apply IH.
    + rewrite !bind_ret. apply IH.
Qed.

End ShutdownFrame.

Lemma Shutdown_quiet_example :
  otelHelper.Shutdown (ext := samples.healthy)
    (set_shutdownFuncs [samples.closure_a; samples.closure_b] samples.bare)
  = Return tt
      (set_calls
         (process.footprint samples.closure_a ++ process.footprint samples.closure_b)
         (set_shutdownFuncs [samples.closure_a; samples.closure_b] samples.bare)).
Proof.
  apply (Shutdown_quiet (ext := samples.healthy)
           (set_shutdownFuncs [samples.closure_a; samples.closure_b] samples.bare));
    reflexivity.
Defined.

(** ** How the first setup ends *)

Section SetupEnds.
Context `{ext : Externals}.
Import process notions.

Lemma supportTLS_of_spelling (w : World) :
  supportTLS_of w = true <-> setting "OTEL_SUPPORT_TLS" w ∈ true_spellings.
Proof.
  unfold supportTLS_of, strconv.ParseBool, strconv.one_of, true_spellings.
  case_bool_decide as Ht; [tauto |].
  case_bool_decide as Hf; split; intros Hx; try discriminate Hx; contradiction.
Qed.

Lemma count_snoc (p : Call -> bool) (l : list Call) (c : Call) :
  count p (l ++ [c]) = (count p l + if p c then 1 else 0)%nat.
Proof.
  rewrite count_app. unfold count at 2. simpl.
  destruct (p c) eqn:Hp.
  - rewrite filter_cons_True by assumption. reflexivity.
  - rewrite filter_cons_False by congruence. reflexivity.
Qed.

(** The first [SetupOtelHelper] of a process never panics, and when it
    ends the process the exit code is 1.  It returns exactly when the TLS
    setting reads as false and the exporter can be built; it asks for an
    exporter exactly when the TLS setting reads as false, that is unless
    the value is one of 1, t, T, TRUE, true, True. *)
Theorem first_setup_outcomes (w : World) (Hfirst : otelOnce w = false) :
  let o := otelHelper.SetupOtelHelper w in
  (forall reason w', o <> Panic reason w') /\
  (forall code w', o = Exit code w' -> code = 1) /\
  (returns o = true <->
     (setting "OTEL_SUPPORT_TLS" w ∉ true_spellings) /\
     otlptracegrpc_New (insecure_options (collectorURL_of w))
       (calls w ++ [CallSetTextMapPropagator the_propagator]) = None) /\
  (count is_New (calls (world_of o)) = count is_New (calls w) <->
     setting "OTEL_SUPPORT_TLS" w ∈ true_spellings) /\
  (count is_New (calls (world_of o)) <= count is_New (calls w) + 1)%nat.
Proof.
  intros o. unfold o.
  pose proof (supportTLS_of_spelling w) as Hsp.
  destruct (supportTLS_cases w) as [Htls | Htls].
  - rewrite (SetupOtelHelper_tls w Hfirst Htls).
    assert (Hin : setting "OTEL_SUPPORT_TLS" w ∈ true_spellings) by now apply Hsp.
    unfold add_line, configured. simpl. rewrite count_snoc. simpl.
    repeat split; try discriminate; try (intros; congruence); try tauto; try lia.
  - rewrite (SetupOtelHelper_insecure w Hfirst Htls).
    assert (Hnin : setting "OTEL_SUPPORT_TLS" w ∉ true_spellings).
    { intros Hin. apply Hsp in Hin. congruence. }
    unfold insecure_outcome. cbv zeta.
    change (calls (add_line insecure_line (configured w)))
      with (calls w ++ [CallSetTextMapPropagator the_propagator]).
    destruct (otlptracegrpc_New _ _) as [e|]; unfold add_line, configured; simpl;
      rewrite ?count_snoc; simpl.
    + repeat split; try discriminate; try (intros; contradiction); try lia.
      * intros code w' H. injection H. congruence.
      * intros [_ H]. discriminate H.
    + repeat split; try discriminate; try assumption; try reflexivity;
        try (intros; contradiction); try lia.
Qed.

(** When [OTEL_COLLECTOR_URL] is empty or not set, the first setup logs
    that the trace export will be skipped, yet it goes on: the exporter is
    asked for with the empty endpoint, and when setup returns the function
    registered for shutdown is the one over that exporter. *)
Theorem empty_collector_url_still_exports (w : World)
    (Hfirst : otelOnce w = false)
    (Htls : supportTLS_of w = false)
    (Hurl : setting "OTEL_COLLECTOR_URL" w = "") :
  let o := otelHelper.SetupOtelHelper w in
  skipped_line ∈ logged (world_of o) /\
  CallNew [otel.WithEndpoint ""; otel.WithInsecure] ∈ calls (world_of o) /\
  (returns o = true ->
   shutdownFuncs (world_of o) =
     shutdownFuncs w ++ [closure_for (serviceName_of w) ""]).
Proof.
  intros o. unfold o. rewrite (SetupOtelHelper_insecure w Hfirst Htls).
  destruct (insecure_outcome_transport w) as ((rest & Hc & _) & _ & Hreg).
  unfold collectorURL_of in *. rewrite Hurl in *.
  split; [| split].
  - unfold insecure_outcome, configured, setting_lines, add_line, collectorURL_of.
    cbv zeta. rewrite Hurl.
    rewrite (bool_decide_eq_true_2 (@eq string "" "") eq_refl).
    destruct (otlptracegrpc_New _ _); simpl; unfold skipped_line;
      repeat (rewrite elem_of_app || rewrite elem_of_cons); intuition.
  - rewrite Hc. unfold insecure_options.
    repeat (rewrite elem_of_app || rewrite elem_of_cons); intuition.
  - exact Hreg.
Qed.

End SetupEnds.

Lemma first_setup_outcomes_example :
  returns (otelHelper.SetupOtelHelper (ext := samples.healthy) samples.bare) = true <->
  (process.setting "OTEL_SUPPORT_TLS" samples.bare ∉ notions.true_spellings) /\
  otlptracegrpc_New (Externals := samples.healthy)
    (process.insecure_options (process.collectorURL_of samples.bare))
    (calls samples.bare ++ [CallSetTextMapPropagator process.the_propagator]) = None.
Proof.
  destruct (first_setup_outcomes (ext := samples.healthy) samples.bare eq_refl)
    as (_ & _ & Hret & _).
  exact Hret.
Defined.

Lemma empty_collector_url_still_exports_example :
  CallNew [otel.WithEndpoint ""; otel.WithInsecure]
    ∈ calls (world_of (otelHelper.SetupOtelHelper (ext := samples.healthy) samples.bare)).
Proof.
  destruct (empty_collector_url_still_exports (ext := samples.healthy) samples.bare)
    as (_ & Hnew & _).
  - reflexivity.
  - vm_compute. reflexivity.
  - reflexivity.
  - exact Hnew.
Defined.

(** ** The single-file revision *)

Section SingleFile.
Context `{ext : Externals}.
Import process notions.



End SingleFile.

(** ** Setup followed by shutdown *)

Section SetupThenShutdown.
Context `{ext : Externals}.
Import process notions.

(** In a process with an empty registry, a first [SetupOtelHelper] that
    returns, followed by [Shutdown], makes five calls in this order: the
    propagator is set, the exporter is built, the tracer provider is set,
    then that provider is shut down and after it that exporter.  The
    registry still holds the function afterwards. *)
Theorem setup_then_shutdown (w : World)
    (Hfirst : otelOnce w = false)
    (Hreg : shutdownFuncs w = [])
    (Hret : returns (otelHelper.SetupOtelHelper w) = true) :
  let name := serviceName_of w in
  let url := collectorURL_of w in
  exists w',
    (otelHelper.SetupOtelHelper ;;; otelHelper.Shutdown) w = Return tt w' /\
    calls w' =
      calls w ++
      [CallSetTextMapPropagator the_propagator;
       CallNew (insecure_options url);
       CallSetTracerProvider (provider_for name url);
       CallProviderShutdown (provider_for name url);
       CallExporterShutdown (otel.mkExporter (insecure_options url))] /\
    shutdownFuncs w' = [closure_for name url].
Proof.
  intros name url.
  destruct (supportTLS_cases w) as [Htls | Htls].
  { rewrite (SetupOtelHelper_tls w Hfirst Htls) in Hret. discriminate Hret. }
  pose proof (SetupOtelHelper_insecure w Hfirst Htls) as Hsetup.
  rewrite Hsetup in Hret.
  unfold insecure_outcome in Hsetup, Hret. cbv zeta in Hsetup, Hret.
  destruct (otlptracegrpc_New _ _); [discriminate Hret |].
  rewrite (bind_Return _ _ _ _ _ Hsetup).
  match goal with |- context [otelHelper.Shutdown ?w1] =>
    destruct (Shutdown_frame w1) as (lines & Hsd & _ & _ & _) end.
  rewrite Hsd. eexists. split; [reflexivity |].
  simpl. rewrite Hreg. simpl.
  split; [| reflexivity].
  unfold configured, add_line. simpl. now rewrite <- !app_assoc.
Qed.

End SetupThenShutdown.

Lemma setup_then_shutdown_example :
  exists w',
    (otelHelper.SetupOtelHelper (ext := samples.healthy) ;;;
     otelHelper.Shutdown (ext := samples.healthy)) samples.bare = Return tt w' /\
    calls w' =
      [CallSetTextMapPropagator process.the_propagator;
       CallNew (process.insecure_options "");
       CallSetTracerProvider (process.provider_for "TestService" "");
       CallProviderShutdown (process.provider_for "TestService" "");
       CallExporterShutdown (otel.mkExporter (process.insecure_options ""))] /\
    shutdownFuncs w' = [process.closure_for "TestService" ""].
Proof.
  apply (setup_then_shutdown (ext := samples.healthy) samples.bare).
  - reflexivity.
  - reflexivity.
  - vm_compute. reflexivity.
Defined.

(** ** The severities, continued *)

Section SeverityOrder.
Import Level notions.

(** The translation keeps the order of the severities: on the five
    constants, a higher severity gets a logrus level of lower value (the
    more severe one for logrus), the value being 5 minus the constant.
    Whatever the value of the severity, the translation is never the panic
    level nor the trace level. *)
Theorem getLogrusLevel_keeps_order (a b : Level)
    (Ha : a ∈ enumeration) (Hb : b ∈ enumeration) :
  severity_rank a = 5 - a /\
  (a <= b <-> severity_rank b <= severity_rank a) /\
  (a < b <-> logrus.at_least (getLogrusLevel b) (getLogrusLevel a)
             /\ getLogrusLevel b <> getLogrusLevel a) /\
  (forall l : Level,
     getLogrusLevel l <> logrus.PanicLevel /\ getLogrusLevel l <> logrus.TraceLevel).
Proof.
  apply enumeration_cases in Ha, Hb.
  assert (Hrank : forall c, c = Debug \/ c = Info \/ c = Warn \/ c = Error \/ c = Fatal ->
                            severity_rank c = 5 - c).
  { intros c [->|[->|[->|[->| ->]]]]; reflexivity. }
  split; [now apply Hrank |].
  split; [rewrite (Hrank a Ha), (Hrank b Hb); lia |].
  split.
  - unfold logrus.at_least. fold (severity_rank a) (severity_rank b).
    rewrite (Hrank a Ha), (Hrank b Hb).
    split.
    + intros Hlt. split; [lia |]. intros Heq.
      assert (severity_rank b = severity_rank a) by (unfold severity_rank; now rewrite Heq).
      rewrite (Hrank a Ha), (Hrank b Hb) in *. lia.
    + intros [Hle Hne].
      assert (a <> b) by (intros ->; now apply Hne). lia.
  - intros l. unfold getLogrusLevel. repeat case_decide; split; discriminate.
Qed.

(** [String] gives "Unknown" exactly for the values that are none of the
    five constants, which are also the values that the translation sends
    to the debug level without being [Debug]. *)
Theorem String_unknown (l : Level) :
  (String l = "Unknown" <-> l ∉ enumeration) /\
  (l ∉ enumeration -> getLogrusLevel l = getLogrusLevel Debug /\ String l <> String Debug).
Proof.
  assert (H : String l = "Unknown" <-> l ∉ enumeration).
  { unfold enumeration. rewrite !not_elem_of_cons.
    unfold String. repeat case_decide; split; intros Hx; try discriminate Hx;
      try reflexivity; try tauto.
    repeat split; try assumption. apply not_elem_of_nil. }
  split; [exact H |].
  intros Hout. split.
  - now rewrite (getLogrusLevel_default l Hout).
  - apply H in Hout. rewrite Hout. discriminate.
Qed.

End SeverityOrder.

Lemma getLogrusLevel_keeps_order_example :
  Level.Warn < Level.Fatal <->
  logrus.at_least (Level.getLogrusLevel Level.Fatal) (Level.getLogrusLevel Level.Warn)
  /\ Level.getLogrusLevel Level.Fatal <> Level.getLogrusLevel Level.Warn.
Proof.
  destruct (getLogrusLevel_keeps_order Level.Warn Level.Fatal) as (_ & _ & H & _).
  - unfold Level.enumeration. set_solver.
  - unfold Level.enumeration. set_solver.
  - exact H.
Defined.

(** ** The logger singleton, continued *)

Section LoggerSingleton.
Import hooks process notions.

Lemma current_logger_consistent (w : World) :
  log_consistent w -> exists lg, current_logger w = Some lg.
Proof.
  unfold log_consistent, current_logger. intros Hc.
  destruct (logOnce w); [| now exists built_logger].
  destruct (Hc eq_refl) as [lg Hlg]. now exists lg.
Qed.

Lemma GetLogHelper_current (w : World) (lg : Logger) :
  current_logger w = Some lg ->
  loggingHelper.GetLogHelper w =
    Return (Some lg) (set_logOnce true (set_logHelper (Some lg) w)).
Proof.
  unfold current_logger, loggingHelper.GetLogHelper, loggingHelper.initLogHelper.
  run_monad. destruct (logOnce w) eqn:Ho; simpl.
  - intros Hlg. rewrite Hlg. destruct w; simpl in *; subst; reflexivity.
  - intros [= <-]. reflexivity.
Qed.

Lemma SetLogLevel_current (l : Level.Level) (w : World) (lg : Logger) :
  current_logger w = Some lg ->
  loggingHelper.SetLogLevel l w =
    Return tt
      (set_logOnce true
         (set_logHelper (Some (SetLevel (Level.getLogrusLevel l) lg)) w)).
Proof.
  intros Hlg. unfold loggingHelper.SetLogLevel.
  rewrite (bind_Return _ _ _ _ _ (GetLogHelper_current w lg Hlg)).
  reflexivity.
Qed.

(** [GetLogHelper] builds the logger once.  The first call builds it with
    the threshold info, the JSON formatter with RFC3339 timestamps and the
    three hooks; a later call returns the logger that is there and changes
    nothing, also after [SetLogLevel]: the threshold that was set is kept,
    the logger is not built anew. *)
Theorem GetLogHelper_singleton (w : World) (l : Level.Level)
    (Hw : log_consistent w) :
  exists lg w1,
    loggingHelper.GetLogHelper w = Return (Some lg) w1 /\
    current_logger w = Some lg /\
    loggingHelper.GetLogHelper w1 = Return (Some lg) w1 /\
    log_consistent w1 /\
    (logOnce w = false ->
     lg = built_logger /\
     LoggerLevel lg = logrus.InfoLevel /\
     LoggerFormatter lg = JSONFormatter time.RFC3339) /\
    exists w2,
      (loggingHelper.SetLogLevel l ;;; loggingHelper.GetLogHelper) w
        = Return (Some (SetLevel (Level.getLogrusLevel l) lg)) w2 /\
      logHelper w2 = Some (SetLevel (Level.getLogrusLevel l) lg).
Proof.
  destruct (current_logger_consistent w Hw) as [lg Hlg].
  exists lg, (set_logOnce true (set_logHelper (Some lg) w)).
  split; [now apply GetLogHelper_current |].
  split; [exact Hlg |].
  split; [now rewrite (GetLogHelper_current _ lg) |].
  split; [intros _; now exists lg |].
  split.
  { intros Ho. unfold current_logger in Hlg. rewrite Ho in Hlg.
    injection Hlg as <-. repeat split. }
  eexists. split.
  - rewrite (bind_Return _ _ _ _ _ (SetLogLevel_current l w lg Hlg)).
    now rewrite (GetLogHelper_current _ (SetLevel (Level.getLogrusLevel l) lg)).
  - reflexivity.
Qed.

(** [SetLogLevel] changes the threshold of the logger and nothing else:
    the hooks and the formatter stay, and so does the rest of the process.
    Of two calls in a row the last one decides: the outcome is that of the
    second call alone. *)
Theorem SetLogLevel_last_wins (a b : Level.Level) (w : World)
    (Hw : log_consistent w) :
  (loggingHelper.SetLogLevel a ;;; loggingHelper.SetLogLevel b) w
    = loggingHelper.SetLogLevel b w /\
  exists lg,
    current_logger w = Some lg /\
    loggingHelper.SetLogLevel b w =
      Return tt
        (set_logOnce true
           (set_logHelper (Some (SetLevel (Level.getLogrusLevel b) lg)) w)) /\
    Hooks (SetLevel (Level.getLogrusLevel b) lg) = Hooks lg /\
    LoggerFormatter (SetLevel (Level.getLogrusLevel b) lg) = LoggerFormatter lg.
Proof.
  destruct (current_logger_consistent w Hw) as [lg Hlg].
  split.
  - rewrite (bind_Return _ _ _ _ _ (SetLogLevel_current a w lg Hlg)).
    rewrite (SetLogLevel_current b _ (SetLevel (Level.getLogrusLevel a) lg))
      by reflexivity.
    now rewrite (SetLogLevel_current b w lg Hlg).
  - exists lg. repeat split; [exact Hlg | now apply SetLogLevel_current].
Qed.

End LoggerSingleton.

Lemma GetLogHelper_singleton_example :
  exists lg w1,
    loggingHelper.GetLogHelper samples.bare = Return (Some lg) w1 /\
    notions.current_logger samples.bare = Some lg /\
    loggingHelper.GetLogHelper w1 = Return (Some lg) w1 /\
    process.log_consistent w1 /\
    (logOnce samples.bare = false ->
     lg = process.built_logger /\
     hooks.LoggerLevel lg = logrus.InfoLevel /\
     hooks.LoggerFormatter lg = hooks.JSONFormatter time.RFC3339) /\
    exists w2,
      (loggingHelper.SetLogLevel Level.Error ;;; loggingHelper.GetLogHelper) samples.bare
        = Return (Some (hooks.SetLevel (Level.getLogrusLevel Level.Error) lg)) w2 /\
      logHelper w2 = Some (hooks.SetLevel (Level.getLogrusLevel Level.Error) lg).
Proof.
  apply (GetLogHelper_singleton samples.bare Level.Error).
  intros H. discriminate H.
Defined.

Lemma SetLogLevel_last_wins_example :
  (loggingHelper.SetLogLevel Level.Debug ;;; loggingHelper.SetLogLevel Level.Error)
    samples.bare
  = loggingHelper.SetLogLevel Level.Error samples.bare.
Proof.
  apply (SetLogLevel_last_wins Level.Debug Level.Error samples.bare).
  intros H. discriminate H.
Defined.

(** ** The hooks, continued *)

Section HookTable.
Import hooks process.

(** In the logger that [initLogHelper] builds, each of the three hooks is
    fired for a level exactly when the level is one of its [Levels], and
    the hooks of a level stand in the order in which they were added:
    call-site hook, trace bridge, shutdown hook. *)
Theorem hooks_fire_at_their_levels (h : Hook) (l : logrus.Level) :
  (h ∈ Hooks built_logger l <-> l ∈ loggingHelper.Levels h) /\
  Hooks built_logger l =
    filter (fun h' => l ∈ loggingHelper.Levels h')
      [LogrusContextHook; LogrusOtelHook; LogrusOtelShutdownHook].
Proof.
  split.
  - rewrite built_logger_hooks.
    split; intros H; apply (bool_decide_eq_true _);
      apply (bool_decide_eq_true _) in H; revert H;
      destruct h, l; vm_compute; congruence.
  - rewrite built_logger_hooks. destruct l; vm_compute; reflexivity.
Qed.

End HookTable.

Section HookResults.
Context `{ext : Externals}.
Import hooks process notions.

Lemma same_but_call_site_refl (e : Entry) : same_but_call_site e e.
Proof. unfold same_but_call_site. repeat split. Qed.

Lemma same_but_call_site_trans (e1 e2 e3 : Entry) :
  same_but_call_site e1 e2 -> same_but_call_site e2 e3 -> same_but_call_site e1 e3.
Proof.
  unfold same_but_call_site.
  intros (Ht & Hl & Hm & Hc & Hd) (Ht' & Hl' & Hm' & Hc' & Hd').
  repeat split; try congruence.
  intros k Hf Hln. rewrite (Hd' k Hf Hln). now apply Hd.
Qed.

Lemma annotated_same (e : Entry) (file : string) (line : Z) :
  same_but_call_site e (annotated e file line).
Proof.
  unfold same_but_call_site, annotated. simpl. repeat split.
  intros k Hf Hl. now rewrite !lookup_insert_ne by congruence.
Qed.

Lemma ContextHook_Fire_result (entry e' : Entry) (err : option errors.error)
    (w w' : World) :
  loggingHelper.LogrusContextHook_Fire entry w = Return (e', err) w' ->
  err = None /\
  match runtime_Caller 7 w with
  | Some (file, line) => e' = annotated entry file line
  | None => e' = entry
  end.
Proof.
  unfold loggingHelper.LogrusContextHook_Fire.
  intros H. apply bind_Return_inv in H as (caller & w1 & Hget & H).
  unfold get in Hget. injection Hget as <- <-.
  apply bind_Return_inv in H as ([] & w2 & _ & H).
  destruct (runtime_Caller 7 w) as [[file line]|].
  - unfold ret in H. injection H as <- <- _. split; reflexivity.
  - apply bind_Return_inv in H as (lh & w3 & _ & H).
    apply bind_Return_inv in H as ([] & w4 & _ & H).
    unfold ret in H. injection H as <- <- _. split; reflexivity.
Qed.

Lemma OtelHook_Fire_returns (entry : Entry) (w : World) :
  exists w',
    loggingHelper.LogrusOtelHook_Fire entry w = Return (entry, None) w' /\
    w' = set_spans (spans w') w /\
    match active_span (spans w) (Context entry) with
    | Some id =>
        events_of (spans w') id = events_of (spans w) id ++ [log_event "msg" entry] /\
        forall j, j <> id -> spans w' !! j = spans w !! j
    | None => spans w' = spans w
    end.
Proof.
  destruct (active_span (spans w) (Context entry)) as [id|] eqn:Hspan.
  - destruct (bridge_appends "msg" entry w id Hspan) as (w' & Hfire & Hev & Hother & Hw').
    exists w'. repeat split; assumption.
  - exists w. split; [| split; [now rewrite set_spans_same | reflexivity]].
    unfold loggingHelper.LogrusOtelHook_Fire.
    now rewrite (bind_Return _ _ _ _ _ (addEvent_inactive _ _ w Hspan)).
Qed.

Lemma Fire_result (hook : Hook) (entry e' : Entry) (err : option errors.error)
    (w w' : World) :
  loggingHelper.Fire hook entry w = Return (e', err) w' ->
  err = None /\ same_but_call_site entry e'.
Proof.
  destruct hook; simpl; intros H.
  - destruct (ContextHook_Fire_result entry e' err w w' H) as (-> & He).
    split; [reflexivity |].
    destruct (runtime_Caller 7 w) as [[file line]|]; subst e'.
    + apply annotated_same.
    + apply same_but_call_site_refl.
  - destruct (OtelHook_Fire_returns entry w) as (w1 & Hfire & _).
    rewrite Hfire in H. injection H as <- <- _.
    split; [reflexivity | apply same_but_call_site_refl].
  - destruct (ShutdownHook_Fire_drains entry w) as (w1 & Hfire & _).
    rewrite Hfire in H. injection H as <- <- _.
    split; [reflexivity | apply same_but_call_site_refl].
Qed.

(** No hook of FlowWatch returns an error, so none keeps the hooks after
    it from firing: whenever the hooks of a level have fired and returned,
    the error is nil, and the entry is the one that was logged but for the
    fields file and line. *)
Theorem hooks_return_no_error (hs : LevelHooks) (level : logrus.Level)
    (entry e' : Entry) (err : option errors.error) (w w' : World)
    (Hfire : loggingHelper.LevelHooks_Fire hs level entry w = Return (e', err) w') :
  err = None /\ same_but_call_site entry e'.
Proof.
  unfold loggingHelper.LevelHooks_Fire in Hfire.
  revert entry w Hfire. induction (hs level) as [|h rest IH]; intros entry w Hfire.
  - simpl in Hfire. unfold ret in Hfire. injection Hfire as <- <- _.
    split; [reflexivity | apply same_but_call_site_refl].
  - simpl in Hfire. apply bind_Return_inv in Hfire as ([e1 err1] & w1 & Hh & Hrest).
    destruct (Fire_result h entry e1 err1 w w1 Hh) as (-> & Hsame).
    destruct (IH e1 w1 Hrest) as (-> & Hsame').
    split; [reflexivity |]. eapply same_but_call_site_trans; eassumption.
Qed.

End HookResults.

Lemma hooks_return_no_error_example :
  @None errors.error = None /\
  notions.same_but_call_site
    (hooks.mkEntry ∅ samples.noon logrus.WarnLevel "disk almost full" samples.in_span_7)
    (samples.warning samples.in_span_7).
Proof.
  eapply (hooks_return_no_error (ext := samples.healthy)
            (hooks.Hooks process.built_logger) logrus.WarnLevel
            (hooks.mkEntry ∅ samples.noon logrus.WarnLevel "disk almost full"
               samples.in_span_7)
            (samples.warning samples.in_span_7) None samples.one_span).
  reflexivity.
Defined.

Section HookPaths.
Context `{ext : Externals}.
Import hooks process notions.

Lemma log_event_unknown (entry : Entry) :
  Data entry !! "file" = None -> Data entry !! "line" = None ->
  log_event "msg" entry = unknown_event entry.
Proof.
  intros Hf Hl. unfold log_event, unknown_event, loggingHelper.getAttributeValue.
  now rewrite Hf, Hl.
Qed.

(** When [runtime.Caller] finds no frame, the log call does not fail for
    that reason: if the hooks of an entry of level warn or above return,
    the error is nil and the entry is left without file and line; the
    call-site hook has returned the entry as it was, and the trace bridge
    has then added to the span of the context one event whose file and
    line are the placeholder "unknown" (or no event when there is no
    recording span). *)
Theorem caller_failure_degrades (entry e' : Entry) (err : option errors.error)
    (w w' : World)
    (Hlevel : warn_or_above (Level entry))
    (Hcaller : runtime_Caller 7 w = None)
    (Hfile : Data entry !! "file" = None)
    (Hline : Data entry !! "line" = None)
    (Hfire : loggingHelper.LevelHooks_Fire (Hooks built_logger) (Level entry) entry w
             = Return (e', err) w') :
  e' = entry /\ err = None /\
  exists w1,
    loggingHelper.LogrusContextHook_Fire entry w = Return (entry, None) w1 /\
    match active_span (spans w1) (Context entry) with
    | Some id =>
        events_of (spans w') id = events_of (spans w1) id ++ [unknown_event entry] /\
        forall j, j <> id -> spans w' !! j = spans w1 !! j
    | None => spans w' = spans w1
    end.
Proof.
  unfold loggingHelper.LevelHooks_Fire in Hfire. rewrite built_logger_hooks in Hfire.
  assert (Hpath :
    exists w1 w2,
      loggingHelper.LogrusContextHook_Fire entry w = Return (entry, None) w1 /\
      loggingHelper.LogrusOtelHook_Fire entry w1 = Return (entry, None) w2 /\
      e' = entry /\ err = None /\ spans w' = spans w2).
  { unfold warn_or_above, logrus.at_least in Hlevel.
    destruct (Level entry); simpl in Hlevel; try lia;
      simpl loggingHelper.fire_each in Hfire;
      apply bind_Return_inv in Hfire as ([e1 err1] & w1 & Hctx & Hfire);
      simpl loggingHelper.Fire in Hctx;
      destruct (ContextHook_Fire_result entry e1 err1 w w1 Hctx) as (-> & He1);
      rewrite Hcaller in He1; subst e1;
      apply bind_Return_inv in Hfire as ([e2 err2] & w2 & Hotel & Hfire);
      simpl loggingHelper.Fire in Hotel;
      destruct (OtelHook_Fire_returns entry w1) as (w2' & Hotel' & _);
      rewrite Hotel' in Hotel; injection Hotel as <- <- <-.
    1,2: apply bind_Return_inv in Hfire as ([e3 err3] & w3 & Hsd & Hfire);
         simpl loggingHelper.Fire in Hsd;
         destruct (ShutdownHook_Fire_drains entry w2') as (w3' & Hsd' & _ & Hsp);
         rewrite Hsd' in Hsd; injection Hsd as <- <- <-;
         simpl in Hfire; unfold ret in Hfire; injection Hfire as <- <- <-;
         exists w1, w2'; repeat split; assumption.
    all: simpl in Hfire; unfold ret in Hfire; injection Hfire as <- <- <-;
         exists w1, w2'; repeat split; assumption. }
  destruct Hpath as (w1 & w2 & Hctx & Hotel & -> & -> & Hsp).
  split; [reflexivity |]. split; [reflexivity |].
  exists w1. split; [exact Hctx |].
  destruct (OtelHook_Fire_returns entry w1) as (w2' & Hotel' & _ & Hev).
  rewrite Hotel' in Hotel. injection Hotel as <-.
  rewrite Hsp. rewrite (log_event_unknown entry Hfile Hline) in Hev. exact Hev.
Qed.

(** An entry below the fatal level never reaches [Shutdown]: when the
    caller is found, its hooks return, the registry is not drained and
    nothing is logged by the standard logger; the only call made is the
    one lookup of the caller by the call-site hook (none for the info and
    trace levels), and apart from the calls only the spans can change. *)
Theorem below_fatal_never_drains (entry : Entry) (w : World)
    (file : string) (line : Z)
    (Hlevel : Level entry ∉ loggingHelper.LogrusOtelShutdownHook_Levels)
    (Hcaller : runtime_Caller 7 w = Some (file, line)) :
  exists e' w',
    loggingHelper.LevelHooks_Fire (Hooks built_logger) (Level entry) entry w
      = Return (e', None) w' /\
    w' = set_spans (spans w') (set_calls (calls w ++ caller_lookups (Level entry)) w) /\
    count is_provider_shutdown (calls w') = count is_provider_shutdown (calls w).
Proof.
  pose proof (ContextHook_Fire_found entry w file line Hcaller) as Hctx.
  destruct (OtelHook_Fire_returns (annotated entry file line)
              (set_calls (calls w ++ [CallCaller 7]) w))
    as (w2 & Hotel & Hw2 & _).
  unfold loggingHelper.LevelHooks_Fire. rewrite built_logger_hooks.
  unfold loggingHelper.LogrusOtelShutdownHook_Levels in Hlevel.
  rewrite !not_elem_of_cons in Hlevel. destruct Hlevel as (Hnf & Hnp & _).
  unfold caller_lookups.
  destruct (Level entry); try congruence; simpl loggingHelper.fire_each.
  - rewrite (bind_Return _ _ _ _ _ Hctx), (bind_Return _ _ _ _ _ Hotel).
    exists (annotated entry file line), w2. unfold ret.
    split; [reflexivity |]. split; [exact Hw2 |].
    rewrite Hw2. simpl. rewrite count_snoc. simpl. lia.
  - rewrite (bind_Return _ _ _ _ _ Hctx), (bind_Return _ _ _ _ _ Hotel).
    exists (annotated entry file line), w2. unfold ret.
    split; [reflexivity |]. split; [exact Hw2 |].
    rewrite Hw2. simpl. rewrite count_snoc. simpl. lia.
  - exists entry, w. unfold ret. split; [reflexivity |].
    simpl. rewrite app_nil_r. split; [now destruct w | reflexivity].
  - rewrite (bind_Return _ _ _ _ _ Hctx).
    exists (annotated entry file line), (set_calls (calls w ++ [CallCaller 7]) w).
    unfold ret. split; [reflexivity |]. split; [reflexivity |].
    simpl. rewrite count_snoc. simpl. lia.
  - exists entry, w. unfold ret. split; [reflexivity |].
    simpl. rewrite app_nil_r. split; [now destruct w | reflexivity].
Qed.

Lemma active_span_insert (sp : gmap nat otel.SpanData) (ctx : option otel.Context)
    (id : nat) (evs : list otel.Event) :
  active_span sp ctx = Some id ->
  active_span (<[id := otel.mkSpanData true evs]> sp) ctx = Some id.
Proof.
  unfold active_span. intros Hactive.
  destruct ctx as [[[[id'|]|]]|]; simpl in Hactive; try discriminate Hactive.
  revert Hactive.
  destruct (sp !! id') as [d|] eqn:Hd; [| discriminate].
  destruct (otel.recording d); [| discriminate].
  intros [= ->]. simpl. now rewrite lookup_insert_eq.
Qed.

(** Two entries logged one after the other under the same recording span
    leave two events, in the order of the log calls, after the events the
    span had; the span is still recording afterwards. *)
Theorem two_entries_two_events (e1 e2 : Entry) (w : World) (id : nat)
    (H1 : active_span (spans w) (Context e1) = Some id)
    (H2 : active_span (spans w) (Context e2) = Some id) :
  exists w',
    (loggingHelper.LogrusOtelHook_Fire e1 ;;; loggingHelper.LogrusOtelHook_Fire e2) w
      = Return (e2, None) w' /\
    events_of (spans w') id =
      events_of (spans w) id ++ [log_event "msg" e1; log_event "msg" e2] /\
    (forall j, j <> id -> spans w' !! j = spans w !! j) /\
    active_span (spans w') (Context e2) = Some id.
Proof.
  destruct (addEvent_active (Context e1) (otel.Attributes (log_event "msg" e1)) w id H1)
    as (d & Hd & Hadd1).
  set (sp1 := <[id := otel.mkSpanData true
                         (otel.events d ++ [otel.mkEvent "log"
                            (otel.Attributes (log_event "msg" e1))])]> (spans w)) in *.
  assert (H2' : active_span (spans (set_spans sp1 w)) (Context e2) = Some id)
    by (simpl; now apply active_span_insert).
  destruct (addEvent_active (Context e2) (otel.Attributes (log_event "msg" e2))
              (set_spans sp1 w) id H2') as (d1 & Hd1 & Hadd2).
  simpl in Hd1. unfold sp1 in Hd1. rewrite lookup_insert_eq in Hd1.
  injection Hd1 as <-.
  eexists. split.
  - unfold loggingHelper.LogrusOtelHook_Fire.
    change (loggingHelper.addEvent (Context e1) _) with
      (loggingHelper.addEvent (Context e1) (otel.Attributes (log_event "msg" e1))).
    rewrite bind_assoc, (bind_Return _ _ _ _ _ Hadd1), bind_ret.
    change (loggingHelper.addEvent (Context e2) _) with
      (loggingHelper.addEvent (Context e2) (otel.Attributes (log_event "msg" e2))).
    rewrite (bind_Return _ _ _ _ _ Hadd2). reflexivity.
  - simpl. split; [| split].
    + rewrite events_of_insert. simpl. unfold events_of. rewrite Hd.
      now rewrite <- app_assoc.
    + intros j Hj. unfold sp1. now rewrite !lookup_insert_ne.
    + apply active_span_insert. exact H2'.
Qed.

End HookPaths.

Lemma caller_failure_degrades_example :
  exists w1,
    loggingHelper.LogrusContextHook_Fire (ext := no_caller)
      (hooks.mkEntry ∅ samples.noon logrus.WarnLevel "disk almost full" samples.in_span_7)
      samples.one_span
      = Return
          (hooks.mkEntry ∅ samples.noon logrus.WarnLevel "disk almost full"
             samples.in_span_7, None) w1.
Proof.
  edestruct (caller_failure_degrades (ext := no_caller)
               (hooks.mkEntry ∅ samples.noon logrus.WarnLevel "disk almost full"
                  samples.in_span_7)
               (hooks.mkEntry ∅ samples.noon logrus.WarnLevel "disk almost full"
                  samples.in_span_7)
               None samples.one_span)
    as (_ & _ & w1 & Hctx & _).
  - unfold process.warn_or_above, logrus.at_least. simpl. lia.
  - reflexivity.
  - reflexivity.
  - reflexivity.
  - reflexivity.
  - exists w1. exact Hctx.
Defined.

Lemma below_fatal_never_drains_example :
  exists e' w',
    loggingHelper.LevelHooks_Fire (ext := samples.healthy)
      (hooks.Hooks process.built_logger) logrus.ErrorLevel
      (hooks.mkEntry ∅ samples.noon logrus.ErrorLevel "request failed" None)
      (set_shutdownFuncs [samples.closure_a] samples.bare)
      = Return (e', None) w' /\
    w' = set_spans (spans w')
           (set_calls
              (calls (set_shutdownFuncs [samples.closure_a] samples.bare)
               ++ notions.caller_lookups logrus.ErrorLevel)
              (set_shutdownFuncs [samples.closure_a] samples.bare)) /\
    process.count process.is_provider_shutdown (calls w') =
      process.count process.is_provider_shutdown
        (calls (set_shutdownFuncs [samples.closure_a] samples.bare)).
Proof.
  apply (below_fatal_never_drains (ext := samples.healthy)
           (hooks.mkEntry ∅ samples.noon logrus.ErrorLevel "request failed" None)
           (set_shutdownFuncs [samples.closure_a] samples.bare) "/app/main.go" 37).
  - unfold loggingHelper.LogrusOtelShutdownHook_Levels. simpl.
    rewrite !not_elem_of_cons. repeat split; try discriminate. apply not_elem_of_nil.
  - reflexivity.
Defined.

Lemma two_entries_two_events_example :
  exists w',
    (loggingHelper.LogrusOtelHook_Fire (ext := samples.healthy)
       (samples.warning samples.in_span_7) ;;;
     loggingHelper.LogrusOtelHook_Fire (ext := samples.healthy)
       (hooks.mkEntry ∅ samples.noon logrus.ErrorLevel "request failed" samples.in_span_7))
      samples.one_span
      = Return
          (hooks.mkEntry ∅ samples.noon logrus.ErrorLevel "request failed"
             samples.in_span_7, None) w' /\
    map otel.Name (process.events_of (spans w') 7) = ["log"; "log"].
Proof.
  destruct (two_entries_two_events (ext := samples.healthy)
              (samples.warning samples.in_span_7)
              (hooks.mkEntry ∅ samples.noon logrus.ErrorLevel "request failed"
                 samples.in_span_7)
              samples.one_span 7%nat)
    as (w' & Hfire & Hev & _).
  - vm_compute. reflexivity.
  - vm_compute. reflexivity.
  - exists w'. split; [exact Hfire |]. rewrite Hev. reflexivity.
Defined.

(** ** The earlier revisions of the logger *)

Section EarlierLogger.
Context `{ext : Externals}.
Import hooks process notions.




End EarlierLogger.

